(** * Time-series analysis pipeline: load, filter, aggregate, statistics

    A shallow embedding of [app.py].  A pandas DataFrame is a list of rows
    in index order, a Series is a list of cells, a boolean mask is a list of
    booleans aligned with the rows, and the [results] dict of
    [calculate_statistics] is a finite map from labels to values.

    Numbers: the cells of the [Value] column are machine numbers, all of
    them rationals ([Q]).  What the libraries compute with rounding or
    wrap-around and the program does not fix (the sum of a group, the
    least-squares solver) is a parameter of the model.  The reductions of
    the statistics engine are written in exact arithmetic; statements about
    them are stated up to [Qeq] and say nothing about binary rounding. *)

From stdpp Require Import gmap strings fin_maps.
From Stdlib Require Import Ascii String ZArith QArith Qabs Qround Lia Lqa List Sorted.
Import ListNotations.

Local Open Scope string_scope.
Local Open Scope list_scope.
Local Open Scope Z_scope.

(** ** Python strings (ASCII text) *)

Module PyStr.

Definition code (c : ascii) : N := N_of_ascii c.

(** [str.lower] on one character: 'A'..'Z' move to 'a'..'z'. *)
Definition lower_char (c : ascii) : ascii :=
  if ((65 <=? code c) && (code c <=? 90))%N
  then ascii_of_N (code c + 32)
  else c.

(** [str.isspace] on one character: TAB, LF, VT, FF, CR, FS, GS, RS, US
    and the blank. *)
Definition is_space (c : ascii) : bool :=
  (((9 <=? code c) && (code c <=? 13))
   || ((28 <=? code c) && (code c <=? 32)))%N.

Fixpoint lower (s : string) : string :=
  match s with
  | EmptyString => EmptyString
  | String c s' => String (lower_char c) (lower s')
  end.

Fixpoint lstrip (s : string) : string :=
  match s with
  | EmptyString => EmptyString
  | String c s' => if is_space c then lstrip s' else s
  end.

Fixpoint rstrip (s : string) : string :=
  match s with
  | EmptyString => EmptyString
  | String c s' =>
      match rstrip s' with
      | EmptyString => if is_space c then EmptyString else String c EmptyString
      | t => String c t
      end
  end.

Definition strip (s : string) : string := rstrip (lstrip s).

Fixpoint startswith (s p : string) : bool :=
  match p, s with
  | EmptyString, _ => true
  | String a p', String b s' => Ascii.eqb a b && startswith s' p'
  | String _ _, EmptyString => false
  end.

(** [pat in s], which is what [Series.str.contains] computes for a
    pattern without regular-expression metacharacters. *)
Fixpoint contains (s pat : string) : bool :=
  startswith s pat ||
  match s with
  | EmptyString => false
  | String _ s' => contains s' pat
  end.

(** [x in xs] for a tuple or list of strings. *)
Definition member (x : string) (xs : list string) : bool :=
  existsb (String.eqb x) xs.

End PyStr.

(** ** Record model *)

(** One row of the loaded frame.  The [Year] column is a timestamp at the
    first of January of a year; it is represented by that year, so that
    [df['Year'].dt.year] is the field itself. *)
Record Row : Type := mkRow {
  Sex : string;
  Year : Z;
  Value : Q
}.

Definition DataFrame := list Row.

(** [df[mask]]: the rows whose mask cell is [True], in index order. *)
Fixpoint boolean_index {A : Type} (df : list A) (mask : list bool) : list A :=
  match df, mask with
  | r :: df', b :: mask' =>
      if b then r :: boolean_index df' mask' else boolean_index df' mask'
  | _, _ => []
  end.

(** Element-wise [&] of two boolean Series. *)
Fixpoint mask_and (m1 m2 : list bool) : list bool :=
  match m1, m2 with
  | a :: m1', b :: m2' => (a && b) :: mask_and m1' m2'
  | _, _ => []
  end.

(** ** Loading *)

(** A row as [read_csv] hands it over: the three columns the program
    reads, as text ([Time] after [astype(str)]). *)
Record RawRow : Type := mkRaw {
  raw_Sex : string;
  raw_Time : string;
  raw_Value : string
}.

Definition digit_of (c : ascii) : option Z :=
  let n := PyStr.code c in
  if ((48 <=? n) && (n <=? 57))%N then Some (Z.of_N n - 48) else None.

(** The [%Y] directive: exactly four decimal digits, nothing before and
    nothing after. *)
Definition strptime_Y (s : string) : option Z :=
  match s with
  | String a (String b (String c (String d EmptyString))) =>
      match digit_of a, digit_of b, digit_of c, digit_of d with
      | Some x, Some y, Some z, Some w => Some (1000 * x + 100 * y + 10 * z + w)
      | _, _, _, _ => None
      end
  | _ => None
  end.

Section Loader.

(** The two library facts the loader depends on and that the program does
    not fix: which years a timestamp can hold, and which tokens
    [to_numeric] reads as a number. *)
Variable representable : Z -> bool.
Variable parse_number : string -> option Q.

(** [pd.to_datetime(..., format='%Y', errors='coerce')] on one cell;
    [None] is [NaT]. *)
Definition to_datetime_Y (s : string) : option Z :=
  match strptime_Y s with
  | Some y => if representable y then Some y else None
  | None => None
  end.

(** [pd.to_numeric(..., errors='coerce')] on one cell; [None] is [NaN]. *)
Definition to_numeric (s : string) : option Q := parse_number s.

(** The frame after the two coercions, before [dropna]. *)
Definition coerce (raw : RawRow) : string * option Z * option Q :=
  (raw_Sex raw, to_datetime_Y (raw_Time raw), to_numeric (raw_Value raw)).

(** [dropna(subset=['Year', 'Value'])]. *)
Fixpoint dropna (cells : list (string * option Z * option Q)) : DataFrame :=
  match cells with
  | [] => []
  | (s, Some y, Some v) :: rest => mkRow s y v :: dropna rest
  | _ :: rest => dropna rest
  end.

Definition load_dataset (rows : list RawRow) : DataFrame :=
  dropna (map coerce rows).

End Loader.

(** ** Filter by gender *)

Definition sex_lower (df : DataFrame) : list string :=
  map (fun r => PyStr.lower (Sex r)) df.

Definition filter_gender (df : DataFrame) (gender : string) : DataFrame :=
  let gender := PyStr.lower (PyStr.strip gender) in
  if PyStr.member gender ["all"; ""] then df
  else if PyStr.startswith gender "males" || PyStr.startswith gender "male"
          || String.eqb gender "m" then
    let mask := map (fun s => PyStr.contains s "males") (sex_lower df) in
    let mask :=
      if String.eqb gender "male" || String.eqb gender "m"
      then map (fun s => String.eqb s "males") (sex_lower df)
      else mask in
    boolean_index df mask
  else if PyStr.startswith gender "female" || PyStr.startswith gender "fem" then
    let mask := map (fun s => String.eqb s "females") (sex_lower df) in
    boolean_index df mask
  else
    boolean_index df (map (fun s => String.eqb s gender) (sex_lower df)).

(** ** Filter by date range *)

Definition filter_year_range (df : DataFrame) (start_year end_year : Z) : DataFrame :=
  boolean_index df
    (mask_and (map (fun r => (Year r >=? start_year)%Z) df)
              (map (fun r => (Year r <=? end_year)%Z) df)).

(** ** Values, exceptions *)

(** What a cell of the [results] dict can hold. [VSqrt q] is the square
    root of the rational [q], which [Q] cannot name. *)
Inductive pyval : Type :=
| VNum (q : Q)
| VSqrt (q : Q)
| VNaN
| VNone
| VStr (s : string).

Inductive exn : Type :=
| IndexError
| ZeroDivisionError
| TypeError
| ValueError.

Inductive result (A : Type) : Type :=
| Ok (a : A)
| Raise (e : exn).

Arguments Ok {A} a.
Arguments Raise {A} e.

#[export] Instance result_ret : MRet result := fun A a => Ok a.

#[export] Instance result_bind : MBind result := fun A B f m =>
  match m with
  | Ok a => f a
  | Raise e => Raise e
  end.

(** ** Aggregate by year *)

(** The groups as [groupby] forms them: one cell per key, keys ascending.
    A row joins the cell of its key, behind the rows met before it. *)
Fixpoint group_add (k : Z) (v : Q) (groups : list (Z * list Q))
  : list (Z * list Q) :=
  match groups with
  | [] => [(k, [v])]
  | (k', cell) :: rest =>
      if (k <? k')%Z then (k, [v]) :: groups
      else if (k =? k')%Z then (k', cell ++ [v]) :: rest
      else (k', cell) :: group_add k v rest
  end.

Fixpoint insert_by_key (x : Z * Q) (l : list (Z * Q)) : list (Z * Q) :=
  match l with
  | [] => [x]
  | y :: l' => if (fst x <=? fst y)%Z then x :: l else y :: insert_by_key x l'
  end.

(** [sort_values] on the key column, ascending. *)
Definition sort_values (l : list (Z * Q)) : list (Z * Q) :=
  fold_right insert_by_key [] l.

(** One row of the yearly frame.  Its [Year] column is the timestamp of
    [YearInt], kept for plotting only; [YearInt] stands for both. *)
Record YearlyRow : Type := mkYearly {
  YearInt : Z;
  ValueAgg : Q
}.

Definition YearlyFrame := list YearlyRow.

(** The decimal text of an integer year has four digits. *)
Definition four_digit_year (y : Z) : bool := (1000 <=? y)%Z && (y <=? 9999)%Z.

(** An integer year that [pd.to_datetime(..., format='%Y')] makes a
    timestamp of: it is read back through its decimal text, which [%Y]
    takes only with four digits, and the timestamp type must hold it
    ([representable], as in the loader). *)
Definition year_timestamp (representable : Z -> bool) (y : Z) : bool :=
  four_digit_year y && representable y.

(** [pd.to_datetime(grouped['YearInt'], format='%Y')]: any year that is
    not made a timestamp raises.  The timestamps are not kept: [YearInt]
    stands for them. *)
Definition to_datetime_years (representable : Z -> bool) (years : list Z)
  : result unit :=
  if forallb (year_timestamp representable) years then Ok tt
  else Raise ValueError.

Section Aggregate.

Variable representable : Z -> bool.

(** The sum of the cells of one group, taken in index order, as the
    column computes it: an integer column wraps around, a float column
    rounds.  The program does not fix it. *)
Variable group_sum : list Q -> Q.

(** [values.groupby(keys).sum().reset_index()]: rows are met in index
    order. *)
Definition groupby_sum (keys : list Z) (values : list Q) : list (Z * Q) :=
  map (fun kc => (fst kc, group_sum (snd kc)))
      (fold_left (fun groups kv => group_add (fst kv) (snd kv) groups)
                 (combine keys values) []).

Definition aggregate_by_year (df : DataFrame) : result YearlyFrame :=
  let grouped := groupby_sum (map Year df) (map Value df) in
  let grouped := sort_values grouped in
  let grouped := map (fun kv => mkYearly (fst kv) (snd kv)) grouped in
  match to_datetime_years representable (map YearInt grouped) with
  | Raise e => Raise e
  | Ok _ => Ok grouped
  end.

End Aggregate.

(** ** Series reductions *)

Definition qsum (l : list Q) : Q := fold_left Qplus l 0%Q.

Definition count (l : list Q) : Q := inject_Z (Z.of_nat (length l)).

(** [Series.mean()]; [NaN] on an empty Series. *)
Definition series_mean (l : list Q) : pyval :=
  match l with
  | [] => VNaN
  | _ => VNum (qsum l / count l)
  end.

Definition qmax (a b : Q) : Q := if Qle_bool a b then b else a.
Definition qmin (a b : Q) : Q := if Qle_bool a b then a else b.

(** [Series.max()] and [Series.min()]; [NaN] on an empty Series. *)
Definition series_max (l : list Q) : pyval :=
  match l with
  | [] => VNaN
  | x :: l' => VNum (fold_left qmax l' x)
  end.

Definition series_min (l : list Q) : pyval :=
  match l with
  | [] => VNaN
  | x :: l' => VNum (fold_left qmin l' x)
  end.

Fixpoint qinsert (x : Q) (l : list Q) : list Q :=
  match l with
  | [] => [x]
  | y :: l' => if Qle_bool x y then x :: l else y :: qinsert x l'
  end.

Definition qsort (l : list Q) : list Q := fold_right qinsert [] l.

(** [Series.median()]: the middle of the sorted values, or the mean of the
    two middle ones. *)
Definition series_median (l : list Q) : pyval :=
  match l with
  | [] => VNaN
  | _ =>
      let s := qsort l in
      let n := length l in
      if Nat.even n
      then VNum ((nth (n / 2 - 1) s 0 + nth (n / 2) s 0) / 2)%Q
      else VNum (nth (n / 2) s 0%Q)
  end.

(** [Series.std(ddof=1)]: [NaN] when there are not more values than
    [ddof]. *)
Definition series_std (ddof : nat) (l : list Q) : pyval :=
  if (length l <=? ddof)%nat then VNaN
  else
    let m := (qsum l / count l)%Q in
    let ss := qsum (map (fun x => (x - m) * (x - m))%Q l) in
    VSqrt (ss / inject_Z (Z.of_nat (length l - ddof))).

(** [Series.iloc[i]] for [i >= 0], and [Series.iloc[-1]]. *)
Definition iloc (l : list Q) (i : nat) : result Q :=
  match nth_error l i with
  | Some x => Ok x
  | None => Raise IndexError
  end.

Definition iloc_last (l : list Q) : result Q :=
  match l with
  | [] => Raise IndexError
  | _ => iloc l (length l - 1)
  end.

(** [a / b].  Division by zero is taken in its strictest reading, as the
    failure it is for Python numbers. *)
Definition truediv (a b : Q) : result Q :=
  if Qeq_bool b 0 then Raise ZeroDivisionError else Ok (a / b)%Q.

(** ** Degree-1 least squares *)

Section Engine.

(** The coefficients [np.polyfit(x, y, 1)] returns on vectors of the same
    length, highest degree first.  They come out of a floating-point
    least-squares solver; the program does not fix them. *)
Variable lstsq_line : list Z -> list Q -> Q * Q.

(** [np.polyfit(x, y, 1)]: it raises on an empty [x] and on vectors of
    different lengths. *)
Definition polyfit1 (x : list Z) (y : list Q) : result (Q * Q) :=
  if (length x =? 0)%nat then Raise TypeError
  else if negb (length x =? length y)%nat then Raise TypeError
  else Ok (lstsq_line x y).

(** ** Statistics *)

Definition calculate_statistics (df_yearly : YearlyFrame) (stats : list string)
  : result (gmap string pyval) :=
  let results : gmap string pyval := ∅ in
  let series := map ValueAgg df_yearly in
  let years := map YearInt df_yearly in
  if (length series =? 0)%nat then
    Ok {[ "Error" := VStr "No data available after filtering/aggregation." ]}
  else
    let results :=
      if PyStr.member "average" stats
      then <["Average" := series_mean series]> results else results in
    let results :=
      if PyStr.member "max" stats
      then <["Max" := series_max series]> results else results in
    let results :=
      if PyStr.member "min" stats
      then <["Min" := series_min series]> results else results in
    let results :=
      if PyStr.member "median" stats
      then <["Median" := series_median series]> results else results in
    let results :=
      if PyStr.member "stddev" stats
      then <["Std Dev" := series_std 1 series]> results else results in
    results ←
      (if PyStr.member "percent change" stats then
         first ← iloc series 0;
         last ← iloc_last series;
         if Qeq_bool first 0 then
           Ok (<["Percent Change Note" :=
                   VStr "First value is 0 — percent change undefined."]>
                 (<["Percent Change (%)" := VNone]> results))
         else
           q ← truediv (last - first) (Qabs first);
           Ok (<["Percent Change (%)" := VNum (q * 100)]> results)
       else Ok results);
    results ←
      (if PyStr.member "trend" stats then
         if (2 <=? length years)%nat then
           '(slope, intercept) ← polyfit1 years series;
           Ok (<["Trend Intercept" := VNum intercept]>
                 (<["Trend Slope (value per year)" := VNum slope]> results))
         else
           Ok (<["Trend" := VStr "Not enough points to compute trend."]> results)
       else Ok results);
    Ok results.

(** ** Overlays of the chart *)

(** The window of [rolling(window=w)] that ends at position [i]. *)
Definition window_at (w : nat) (values : list Q) (i : nat) : list Q :=
  skipn (i + 1 - w) (firstn (i + 1) values).

(** [Series.rolling(window=w, min_periods=p).mean()]: [NaN] where the
    window holds fewer than [p] values. *)
Definition rolling_mean (w p : nat) (values : list Q) : list pyval :=
  map (fun i =>
         let win := window_at w values i in
         if (p <=? length win)%nat then series_mean win else VNaN)
      (seq 0 (length values)).

(** What [plot_all_charts] draws: the data line, and the two overlays when
    they are asked for. *)
Record Chart : Type := mkChart {
  data_line : list (Z * Q);
  trend_line : option (list (Z * Q));
  moving_average : option (list pyval)
}.

Definition plot_all_charts (df_yearly : YearlyFrame) (stats : list string)
  : result Chart :=
  let years := map YearInt df_yearly in
  let values := map ValueAgg df_yearly in
  trend ←
    (if PyStr.member "trend" stats && (2 <=? length df_yearly)%nat then
       '(slope, intercept) ← polyfit1 years values;
       Ok (Some (map (fun x => (x, slope * inject_Z x + intercept)%Q) years))
     else Ok None);
  let ma :=
    if PyStr.member "moving average" stats
    then Some (rolling_mean 3 1 values) else None in
  Ok (mkChart (combine years values) trend ma).

End Engine.

(** ** Main program *)

(** [s.split(sep)] for a one-character separator: the pieces between the
    separators, empty pieces included. *)
Fixpoint split_on (sep : ascii) (s : string) : list string :=
  match s with
  | EmptyString => [EmptyString]
  | String c s' =>
      if Ascii.eqb c sep then EmptyString :: split_on sep s'
      else
        match split_on sep s' with
        | piece :: pieces => String c piece :: pieces
        | [] => [String c EmptyString]
        end
  end.

(** The requested names as [main] reads them from one line:
    [input().lower().split(",")], then
    [[s.strip() for s in stats_input if s.strip()]]. *)
Definition read_stats (line : string) : list string :=
  let stats_input := split_on "," (PyStr.lower line) in
  map PyStr.strip
      (List.filter (fun s => negb (String.eqb (PyStr.strip s) "")) stats_input).

(** [Series.unique()]: the distinct values, in order of first appearance. *)
Fixpoint unique_from (seen : list Z) (l : list Z) : list Z :=
  match l with
  | [] => []
  | x :: l' =>
      if existsb (Z.eqb x) seen then unique_from seen l'
      else x :: unique_from (x :: seen) l'
  end.

Definition unique (l : list Z) : list Z := unique_from [] l.

Fixpoint zinsert (x : Z) (l : list Z) : list Z :=
  match l with
  | [] => [x]
  | y :: l' => if (x <=? y)%Z then x :: l else y :: zinsert x l'
  end.

(** [sorted(...)] on integers. *)
Definition sorted (l : list Z) : list Z := fold_right zinsert [] l.

(** [l[0]] and [l[-1]] on a Python list. *)
Definition list_first (l : list Z) : result Z :=
  match l with
  | [] => Raise IndexError
  | x :: _ => Ok x
  end.

Definition list_last (l : list Z) : result Z :=
  match l with
  | [] => Raise IndexError
  | x :: _ => Ok (List.last l x)
  end.

(** [sorted(df['Sex'].unique())].  The categories are put in order only
    to be printed, so only the failure is kept.  A cell that [read_csv]
    read as missing is a float among the texts of the column, and Python
    refuses to order a float and a text: [TypeError]. *)
Definition sorted_sex (missing : string -> bool) (cells : list string)
  : result unit :=
  if existsb missing cells && existsb (fun c => negb (missing c)) cells
  then Raise TypeError
  else Ok tt.

(** How a run of [main] ends: [sys.exit(code)], an exception nobody
    catches, or the end of the function with the results that were printed
    and the chart that was drawn. *)
Inductive outcome : Type :=
| Exit (code : Z)
| Uncaught (e : exn)
| Finished (results : gmap string pyval) (chart : Chart).

Section Main.

(** The library facts of the loader, of the aggregation and of the trend,
    [int] on a line of text ([None] is [ValueError]), and the category
    cells that [read_csv] reads as missing (the empty cell among them). *)
Variable representable : Z -> bool.
Variable parse_number : string -> option Q.
Variable py_int : string -> option Z.
Variable missing : string -> bool.
Variable group_sum : list Q -> Q.
Variable lstsq_line : list Z -> list Q -> Q * Q.

(** [int(input(...) or default)]: the default when the line is empty. *)
Definition year_input (line : string) (default : Z) : option Z :=
  if String.eqb line "" then Some default else py_int line.

(** [main], as a function of the file ([None] when it is not found,
    [Some rows] when [read_csv] read it, with its columns [Sex], [Time]
    and [Value], the first one a column of texts and of missing cells) and
    of the four lines the user types.  What is printed on the way is left
    out; of the values that are only printed, the step that can fail is
    kept. *)
Definition main (file : option (list RawRow))
  (gender_line start_line end_line stats_line : string) : outcome :=
  match file with
  | None => Exit 1
  | Some rows =>
      let df := load_dataset representable parse_number rows in
      let available_years := sorted (unique (map Year df)) in
      match list_first available_years, list_last available_years with
      | Raise e, _ => Uncaught e
      | Ok _, Raise e => Uncaught e
      | Ok min_year, Ok max_year =>
          match sorted_sex missing (map Sex df) with
          | Raise e => Uncaught e
          | Ok _ =>
              let gender := PyStr.strip gender_line in
              let df_filtered := filter_gender df gender in
              match year_input start_line min_year with
              | None => Exit 1
              | Some start_year =>
                  match year_input end_line max_year with
                  | None => Exit 1
                  | Some end_year =>
                      let df_filtered :=
                        filter_year_range df_filtered start_year end_year in
                      match aggregate_by_year representable group_sum df_filtered with
                      | Raise e => Uncaught e
                      | Ok df_yearly =>
                          if (length df_yearly =? 0)%nat then Exit 0
                          else
                            let stats := read_stats stats_line in
                            match calculate_statistics lstsq_line df_yearly stats with
                            | Raise e => Uncaught e
                            | Ok results =>
                                match plot_all_charts lstsq_line df_yearly stats with
                                | Raise e => Uncaught e
                                | Ok chart => Finished results chart
                                end
                            end
                      end
                  end
              end
          end
      end
  end.

End Main.

(** * Vocabulary of the statements *)

(** [s] is a token of exactly four decimal digits that reads as [y]. *)
Definition decimal_digit (c : ascii) : Prop :=
  In c ["0"; "1"; "2"; "3"; "4"; "5"; "6"; "7"; "8"; "9"]%char.

Definition digit_value (c : ascii) : Z := Z.of_N (N_of_ascii c) - 48.

Definition four_digit_token (s : string) (y : Z) : Prop :=
  exists a b c d : ascii,
    s = String a (String b (String c (String d EmptyString)))
    /\ decimal_digit a /\ decimal_digit b /\ decimal_digit c /\ decimal_digit d
    /\ y = 1000 * digit_value a + 100 * digit_value b
           + 10 * digit_value c + digit_value d.

(** One choice of the two library facts, to run the loader on examples:
    the years of a nanosecond timestamp, and unsigned integer tokens. *)
Definition ns_year (y : Z) : bool := (1678 <=? y) && (y <=? 2261).

Fixpoint digits_value (s : string) (acc : Z) : option Z :=
  match s with
  | EmptyString => Some acc
  | String c s' =>
      match digit_of c with
      | Some d => digits_value s' (10 * acc + d)
      | None => None
      end
  end.

Definition read_integer (s : string) : option Q :=
  match s with
  | EmptyString => None
  | _ => option_map inject_Z (digits_value s 0)
  end.

(** The [Value] cells of the rows of [df] whose year is [y], in index
    order. *)
Definition group_values (df : DataFrame) (y : Z) : list Q :=
  map Value (List.filter (fun r => Year r =? y) df).

(** What the group cells hold once the rows [pre] have been met. *)
Definition group_inv (pre : DataFrame) (g : list (Z * list Q)) : Prop :=
  StronglySorted Z.lt (map fst g)
  /\ (forall k cell, In (k, cell) g -> cell = group_values pre k)
  /\ (forall k, In k (map fst g) <-> In k (map Year pre)).

(** Two choices of the sum of a group, to run the aggregation on examples:
    the exact sum, and the sum of a column of 64-bit integers, which wraps
    around at every addition. *)
Definition wrap64 (z : Z) : Z := (z + 2 ^ 63) mod 2 ^ 64 - 2 ^ 63.

Definition int64_sum (l : list Q) : Q :=
  fold_left (fun acc v => inject_Z (wrap64 (Qfloor acc + Qfloor v))) l 0%Q.


(** The sum of [f] over the rows of a frame. *)
Definition sumf {A : Type} (f : A -> Q) (l : list A) : Q := qsum (map f l).

(** The abscissa and ordinate of a point of the series, and the sums the
    normal equations are made of. *)
Definition X (r : YearlyRow) : Q := inject_Z (YearInt r).
Definition Y (r : YearlyRow) : Q := ValueAgg r.

Definition cnt (df : YearlyFrame) : Q := inject_Z (Z.of_nat (length df)).
Definition Sx (df : YearlyFrame) : Q := sumf X df.
Definition Sy (df : YearlyFrame) : Q := sumf Y df.
Definition Sxx (df : YearlyFrame) : Q := sumf (fun r => X r * X r)%Q df.
Definition Sxy (df : YearlyFrame) : Q := sumf (fun r => X r * Y r)%Q df.
Definition Syy (df : YearlyFrame) : Q := sumf (fun r => Y r * Y r)%Q df.

(** The determinant of the normal equations. *)
Definition det (df : YearlyFrame) : Q := (cnt df * Sxx df - Sx df * Sx df)%Q.

Definition ols_slope (df : YearlyFrame) : Q :=
  ((cnt df * Sxy df - Sx df * Sy df) / det df)%Q.

Definition ols_intercept (df : YearlyFrame) : Q :=
  ((Sy df - ols_slope df * Sx df) / cnt df)%Q.

(** The sum of the squared residuals of the line [a * year + b]. *)
Definition sse (df : YearlyFrame) (a b : Q) : Q :=
  sumf (fun r => (Y r - (a * X r + b)) * (Y r - (a * X r + b)))%Q df.

(** One choice of the solver, to run the engine on examples: the
    least-squares line in exact arithmetic, through the normal equations
    (with the quotient [0] where all the years are equal). *)
Definition sum_xy (xs ys : list Q) : Q :=
  qsum (map (fun p => fst p * snd p)%Q (combine xs ys)).

Definition exact_line (x : list Z) (y : list Q) : Q * Q :=
  let xs := map inject_Z x in
  let n := count xs in
  let sx := qsum xs in
  let sy := qsum y in
  let sxx := sum_xy xs xs in
  let sxy := sum_xy xs y in
  let slope := ((n * sxy - sx * sy) / (n * sxx - sx * sx))%Q in
  let intercept := ((sy - slope * sx) / n)%Q in
  (slope, intercept).

(** The result of [calculate_statistics] on a frame with rows, cut in
    three: the five entries written first, ... *)
Definition basic_stats (series : list Q) (stats : list string)
  : gmap string pyval :=
  let results : gmap string pyval := ∅ in
  let results :=
    if PyStr.member "average" stats
    then <["Average" := series_mean series]> results else results in
  let results :=
    if PyStr.member "max" stats
    then <["Max" := series_max series]> results else results in
  let results :=
    if PyStr.member "min" stats
    then <["Min" := series_min series]> results else results in
  let results :=
    if PyStr.member "median" stats
    then <["Median" := series_median series]> results else results in
  if PyStr.member "stddev" stats
  then <["Std Dev" := series_std 1 series]> results else results.

(** ... the percent-change entries as the program stores them when nothing
    is raised, ... *)
Definition percent_part (series : list Q) (stats : list string)
  (results : gmap string pyval) : gmap string pyval :=
  if PyStr.member "percent change" stats then
    match series with
    | [] => results
    | first :: _ =>
        if Qeq_bool first 0 then
          <["Percent Change Note" :=
              VStr "First value is 0 — percent change undefined."]>
            (<["Percent Change (%)" := VNone]> results)
        else
          <["Percent Change (%)" :=
              VNum ((List.last series first - first) / Qabs first * 100)]>
            results
    end
  else results.

(** ... and the trend entries. *)
Definition trend_part (lstsq_line : list Z -> list Q -> Q * Q)
  (df : YearlyFrame) (stats : list string)
  (results : gmap string pyval) : gmap string pyval :=
  if PyStr.member "trend" stats then
    if (2 <=? length df)%nat then
      let '(slope, intercept) := lstsq_line (map YearInt df) (map ValueAgg df) in
      <["Trend Intercept" := VNum intercept]>
        (<["Trend Slope (value per year)" := VNum slope]> results)
    else <["Trend" := VStr "Not enough points to compute trend."]> results
  else results.

(** The names [calculate_statistics] looks for. *)
Definition vocabulary : list string :=
  ["average"; "max"; "min"; "median"; "stddev"; "percent change"; "trend"].

Definition recognized (name : string) : bool := PyStr.member name vocabulary.



Definition collinear_series : YearlyFrame :=
  [mkYearly 2000 5; mkYearly 2001 7; mkYearly 2002 9].


(** The labels under which a requested name can leave an entry. *)
Definition labels_of (name : string) : list string :=
  if String.eqb name "average" then ["Average"]
  else if String.eqb name "max" then ["Max"]
  else if String.eqb name "min" then ["Min"]
  else if String.eqb name "median" then ["Median"]
  else if String.eqb name "stddev" then ["Std Dev"]
  else if String.eqb name "percent change"
       then ["Percent Change (%)"; "Percent Change Note"]
  else if String.eqb name "trend"
       then ["Trend Slope (value per year)"; "Trend Intercept"; "Trend"]
  else [].

(** The mean of the totals at the positions [max(0, i-2)] to [i], both
    included, divided by [min(3, i+1)]. *)
Definition trailing_mean (values : list Q) (i : nat) : Q :=
  let lo := Z.to_nat (Z.max 0 (Z.of_nat i - 2)) in
  (qsum (map (fun k => nth k values 0%Q) (seq lo (i + 1 - lo)))
   / inject_Z (Z.min 3 (Z.of_nat i + 1)))%Q.

(** The year of a yearly row lies in a range, as a test. *)
Definition year_in_range (s e : Z) (row : YearlyRow) : bool :=
  (s <=? YearInt row) && (YearInt row <=? e).

(** A text that does not start with a blank. *)
Definition head_ok (s : string) : bool :=
  match s with
  | EmptyString => true
  | String c _ => negb (PyStr.is_space c)
  end.

(** One choice of [int] on a line, to run [main] on examples: unsigned
    decimal integers. *)
Definition read_year (s : string) : option Z :=
  match s with
  | EmptyString => None
  | _ => digits_value s 0
  end.

(** [mn] and [mx] are the smallest and the largest year of the frame. *)
Definition year_bounds (df : DataFrame) (mn mx : Z) : Prop :=
  In mn (map Year df) /\ In mx (map Year df)
  /\ forall r, In r df -> mn <= Year r <= mx.

(** A list of integers whose absolute values add up to less than 2^53. *)
Definition small_integers (l : list Q) : Prop :=
  (forall v, In v l -> exists z : Z, v = inject_Z z)
  /\ (qsum (map Qabs l) < inject_Z (2 ^ 53))%Q.

(** The empty cell, one of the cells [read_csv] reads as missing. *)
Definition empty_cell (c : string) : bool := String.eqb c "".

(** A small file, to run [main] on examples. *)
Definition sample_file : list RawRow :=
  [mkRaw "Males" "2001" "4"; mkRaw "Males and females" "2001" "9";
   mkRaw "Females" "2000" "1"; mkRaw "Males" "2002" "6";
   mkRaw "Males" "year" "5"].

(** A file with a category cell left empty. *)
Definition gapped_file : list RawRow :=
  [mkRaw "Males" "2001" "4"; mkRaw "" "2002" "6"].

(** * Properties *)

(** ** Masks *)

Lemma boolean_index_map {A : Type} (f : A -> bool) (l : list A) :
  boolean_index l (map f l) = List.filter f l.
Proof.
  induction l as [|x l IH]; simpl; [reflexivity|].
  rewrite IH. reflexivity.
Qed.

Lemma mask_and_map {A : Type} (f g : A -> bool) (l : list A) :
  mask_and (map f l) (map g l) = map (fun x => f x && g x) l.
Proof.
  induction l as [|x l IH]; simpl; [reflexivity|].
  rewrite IH. reflexivity.
Qed.

Lemma boolean_index_sex_lower (f : string -> bool) (df : DataFrame) :
  boolean_index df (map f (sex_lower df))
  = List.filter (fun r => f (PyStr.lower (Sex r))) df.
Proof.
  unfold sex_lower. rewrite map_map. apply boolean_index_map.
Qed.

Lemma filter_true {A : Type} (l : list A) :
  List.filter (fun _ => true) l = l.
Proof.
  induction l as [|x l IH]; simpl; congruence.
Qed.

Lemma filter_length_lt {A : Type} (f g : A -> bool) (l : list A) (x : A) :
  (forall y, f y = true -> g y = true) ->
  In x l -> g x = true -> f x = false ->
  (length (List.filter f l) < length (List.filter g l))%nat.
Proof.
  intros Hfg. induction l as [|y l IH]; simpl; [tauto|].
  intros [->|Hin] Hg Hf.
  - rewrite Hg, Hf. simpl.
    assert (length (List.filter f l) <= length (List.filter g l))%nat; [|lia].
    clear -Hfg. induction l as [|z l IH]; simpl; [lia|].
    destruct (f z) eqn:Ez.
    + rewrite (Hfg _ Ez). simpl. lia.
    + destruct (g z); simpl; lia.
  - specialize (IH Hin Hg Hf).
    destruct (f y) eqn:Ey.
    + rewrite (Hfg _ Ey). simpl. lia.
    + destruct (g y); simpl; lia.
Qed.

(** ** Strings *)

Module PyStrFacts.
Import PyStr.

Lemma startswith_refl (s : string) : startswith s s = true.
Proof.
  induction s as [|c s IH]; simpl; [reflexivity|].
  rewrite Ascii.eqb_refl, IH. reflexivity.
Qed.

Lemma contains_refl (s : string) : contains s s = true.
Proof.
  destruct s; simpl; [reflexivity|].
  rewrite Ascii.eqb_refl, startswith_refl. reflexivity.
Qed.

Lemma is_space_lower_char (c : ascii) : is_space (lower_char c) = is_space c.
Proof.
  destruct c as [[] [] [] [] [] [] [] []]; reflexivity.
Qed.

Lemma lower_char_idem (c : ascii) : lower_char (lower_char c) = lower_char c.
Proof.
  destruct c as [[] [] [] [] [] [] [] []]; reflexivity.
Qed.

Lemma lower_idem (s : string) : lower (lower s) = lower s.
Proof.
  induction s as [|c s IH]; simpl; [reflexivity|].
  rewrite lower_char_idem, IH. reflexivity.
Qed.

Lemma lstrip_lower (s : string) : lstrip (lower s) = lower (lstrip s).
Proof.
  induction s as [|c s IH]; simpl; [reflexivity|].
  rewrite is_space_lower_char. destruct (is_space c); [exact IH|reflexivity].
Qed.

Lemma rstrip_lower (s : string) : rstrip (lower s) = lower (rstrip s).
Proof.
  induction s as [|c s IH]; simpl; [reflexivity|].
  rewrite IH, is_space_lower_char.
  destruct (rstrip s); simpl; [destruct (is_space c)|]; reflexivity.
Qed.

Lemma strip_lower (s : string) : strip (lower s) = lower (strip s).
Proof.
  unfold strip. rewrite lstrip_lower, rstrip_lower. reflexivity.
Qed.

End PyStrFacts.

(** ** Loader *)

Lemma digit_of_Some (c : ascii) (x : Z) :
  digit_of c = Some x -> decimal_digit c /\ x = digit_value c.
Proof.
  unfold digit_of, digit_value, PyStr.code.
  destruct (_ && _)%N eqn:E; [|discriminate].
  intros [= <-]. split; [|reflexivity].
  destruct c as [[] [] [] [] [] [] [] []]; try discriminate E;
    unfold decimal_digit; simpl; tauto.
Qed.

Lemma strptime_Y_token (s : string) (y : Z) :
  strptime_Y s = Some y -> four_digit_token s y.
Proof.
  destruct s as [|a [|b [|c [|d [|? ?]]]]]; simpl; try discriminate.
  destruct (digit_of a) as [x1|] eqn:Ea; [|discriminate].
  destruct (digit_of b) as [x2|] eqn:Eb; [|discriminate].
  destruct (digit_of c) as [x3|] eqn:Ec; [|discriminate].
  destruct (digit_of d) as [x4|] eqn:Ed; [|discriminate].
  apply digit_of_Some in Ea as [? ->], Eb as [? ->], Ec as [? ->], Ed as [? ->].
  intros [= <-]. exists a, b, c, d. tauto.
Qed.

Section LoaderFacts.

Variable representable : Z -> bool.
Variable parse_number : string -> option Q.

Let load := load_dataset representable parse_number.

Lemma load_dataset_app (l1 l2 : list RawRow) :
  load (l1 ++ l2) = load l1 ++ load l2.
Proof.
  unfold load, load_dataset. rewrite map_app.
  induction (map (coerce representable parse_number) l1) as [|[[s [y|]] [v|]] l IH];
    simpl; rewrite ?IH; reflexivity.
Qed.

Lemma load_dataset_In (rows : list RawRow) (r : Row) :
  In r (load rows) ->
  exists raw, In raw rows /\ Sex r = raw_Sex raw
              /\ to_datetime_Y representable (raw_Time raw) = Some (Year r)
              /\ to_numeric parse_number (raw_Value raw) = Some (Value r).
Proof.
  unfold load, load_dataset.
  induction rows as [|raw rows IH]; simpl; [tauto|].
  destruct (to_datetime_Y representable (raw_Time raw)) as [y|] eqn:Ey;
    destruct (to_numeric parse_number (raw_Value raw)) as [v|] eqn:Ev; simpl.
  - intros [<-|Hin].
    + exists raw. simpl. auto.
    + destruct (IH Hin) as (raw' & ? & ?). exists raw'. auto.
  - intros Hin. destruct (IH Hin) as (raw' & ? & ?). exists raw'. auto.
  - intros Hin. destruct (IH Hin) as (raw' & ? & ?). exists raw'. auto.
  - intros Hin. destruct (IH Hin) as (raw' & ? & ?). exists raw'. auto.
Qed.

(** C8.  A row of the loaded frame always comes from a raw row whose
    [Time] is a four-digit token reading as the row's year and whose
    [Value] token reads as the row's number.  A raw row that fails either
    coercion leaves the loaded frame as if it had not been there, and the
    rows around it are loaded all the same (loading is a total function:
    nothing is raised for a row); a raw row that passes both is loaded in
    its place. *)
Theorem load_dataset_admits_only_parsed (rows : list RawRow) :
  (forall r, In r (load_dataset representable parse_number rows) ->
     exists raw, In raw rows /\ Sex r = raw_Sex raw
                 /\ four_digit_token (raw_Time raw) (Year r)
                 /\ parse_number (raw_Value raw) = Some (Value r))
  /\ (forall before raw after,
        rows = before ++ raw :: after ->
        to_datetime_Y representable (raw_Time raw) = None
        \/ to_numeric parse_number (raw_Value raw) = None ->
        load_dataset representable parse_number rows
        = load_dataset representable parse_number (before ++ after))
  /\ (forall before raw after y v,
        rows = before ++ raw :: after ->
        to_datetime_Y representable (raw_Time raw) = Some y ->
        to_numeric parse_number (raw_Value raw) = Some v ->
        load_dataset representable parse_number rows
        = load_dataset representable parse_number before
          ++ mkRow (raw_Sex raw) y v
          :: load_dataset representable parse_number after).
Proof.
  split; [|split].
  - intros r Hin. destruct (load_dataset_In rows r Hin) as (raw & H1 & H2 & H3 & H4).
    exists raw. repeat split; auto.
    apply strptime_Y_token. unfold to_datetime_Y in H3.
    destruct (strptime_Y (raw_Time raw)) as [y|]; [|discriminate].
    destruct (representable y); [|discriminate]. congruence.
  - intros before raw after -> Hfail.
    fold load. rewrite !load_dataset_app. f_equal.
    change (raw :: after) with ([raw] ++ after). rewrite load_dataset_app.
    assert (load [raw] = []) as ->; [|reflexivity].
    unfold load, load_dataset, coerce. simpl.
    destruct Hfail as [-> | ->]; [reflexivity|].
    destruct (to_datetime_Y representable (raw_Time raw)); reflexivity.
  - intros before raw after y v -> Hy Hv.
    fold load. rewrite load_dataset_app. f_equal.
    change (raw :: after) with ([raw] ++ after). rewrite load_dataset_app.
    unfold load, load_dataset, coerce. simpl. rewrite Hy, Hv. reflexivity.
Qed.

End LoaderFacts.

Lemma load_dataset_admits_only_parsed_witness :
  load_dataset ns_year read_integer
    [mkRaw "Males" "2000" "12"; mkRaw "Males" "20x0" "7";
     mkRaw "Females" "2001" "n/a"]
  = load_dataset ns_year read_integer
      ([mkRaw "Males" "2000" "12"] ++ [mkRaw "Females" "2001" "n/a"]).
Proof.
  apply (proj1 (proj2 (load_dataset_admits_only_parsed ns_year read_integer _))
           [mkRaw "Males" "2000" "12"] (mkRaw "Males" "20x0" "7")
           [mkRaw "Females" "2001" "n/a"] eq_refl).
  left. reflexivity.
Defined.

(** ** Year range *)

Lemma filter_year_range_filter (df : DataFrame) (s e : Z) :
  filter_year_range df s e
  = List.filter (fun r => (Year r >=? s) && (Year r <=? e)) df.
Proof.
  unfold filter_year_range. rewrite mask_and_map. apply boolean_index_map.
Qed.

(** C6.  The year-range filter keeps, in index order, exactly the rows
    whose year lies between the two bounds, both included; when the lower
    bound is above the upper one the result is the empty frame.  The filter
    is a total function of any frame and any two integers. *)
Theorem filter_year_range_inclusive (df : DataFrame) (start_year end_year : Z) :
  filter_year_range df start_year end_year
  = List.filter (fun r => (start_year <=? Year r) && (Year r <=? end_year)) df
  /\ (forall r, In r (filter_year_range df start_year end_year)
               <-> In r df /\ start_year <= Year r <= end_year)
  /\ (start_year > end_year -> filter_year_range df start_year end_year = []).
Proof.
  rewrite filter_year_range_filter.
  assert (Hext : forall r, (Year r >=? start_year) && (Year r <=? end_year)
                           = (start_year <=? Year r) && (Year r <=? end_year)).
  { intros r. rewrite Z.geb_leb. reflexivity. }
  rewrite (List.filter_ext _ _ Hext).
  split; [reflexivity|]. split.
  - intros r. rewrite List.filter_In, andb_true_iff, !Z.leb_le. tauto.
  - intros Hgt. induction df as [|r df IH]; simpl; [reflexivity|].
    destruct (start_year <=? Year r) eqn:E1; simpl; [|exact IH].
    destruct (Year r <=? end_year) eqn:E2; simpl; [|exact IH].
    apply Z.leb_le in E1, E2. lia.
Qed.

Lemma filter_year_range_inclusive_witness :
  filter_year_range [mkRow "Males" 2001 1; mkRow "Males" 2003 2] 2002 2000 = [].
Proof.
  apply (filter_year_range_inclusive _ 2002 2000). lia.
Defined.

(** ** Gender filter *)

Lemma filter_gender_male (df : DataFrame) :
  filter_gender df "male"
  = List.filter (fun r => String.eqb (PyStr.lower (Sex r)) "males") df.
Proof.
  unfold filter_gender. simpl. apply boolean_index_sex_lower.
Qed.

Lemma filter_gender_males (df : DataFrame) :
  filter_gender df "males"
  = List.filter (fun r => PyStr.contains (PyStr.lower (Sex r)) "males") df.
Proof.
  unfold filter_gender. simpl. apply boolean_index_sex_lower.
Qed.

Lemma eqb_males_contains (s : string) :
  String.eqb s "males" = true -> PyStr.contains s "males" = true.
Proof.
  intros H. apply String.eqb_eq in H. subst s. reflexivity.
Qed.

(** C5.  The expression "male" keeps the rows whose lower-cased category
    is exactly "males", the expression "males" those whose lower-cased
    category contains "males".  When the frame has a row of the combined
    category "males and females" (in any letter case), the rows kept for
    "male" are rows kept for "males", and that row is kept for "males" but
    not for "male": the first selection is a strict part of the second,
    and strictly shorter. *)
Theorem filter_gender_male_strict_subset (df : DataFrame) (r : Row) :
  In r df ->
  PyStr.lower (Sex r) = "males and females" ->
  filter_gender df "male"
  = List.filter (fun x => String.eqb (PyStr.lower (Sex x)) "males") df
  /\ filter_gender df "males"
     = List.filter (fun x => PyStr.contains (PyStr.lower (Sex x)) "males") df
  /\ (forall x, In x (filter_gender df "male") -> In x (filter_gender df "males"))
  /\ filter_gender df "male"
     = List.filter (fun x => String.eqb (PyStr.lower (Sex x)) "males")
                   (filter_gender df "males")
  /\ In r (filter_gender df "males")
  /\ ~ In r (filter_gender df "male")
  /\ (length (filter_gender df "male") < length (filter_gender df "males"))%nat.
Proof.
  intros Hin Hsex. split; [apply filter_gender_male|].
  split; [apply filter_gender_males|].
  rewrite filter_gender_male, filter_gender_males.
  repeat split.
  - intros x. rewrite !List.filter_In. intros [? ?]. auto using eqb_males_contains.
  - clear Hin. induction df as [|y l IH]; simpl; [reflexivity|].
    destruct (String.eqb (PyStr.lower (Sex y)) "males") eqn:E.
    + rewrite (eqb_males_contains _ E). simpl. rewrite E. f_equal. exact IH.
    + destruct (PyStr.contains (PyStr.lower (Sex y)) "males"); simpl;
        rewrite ?E; exact IH.
  - apply List.filter_In. split; [assumption|]. rewrite Hsex. reflexivity.
  - rewrite List.filter_In, Hsex. intros [_ H]. discriminate H.
  - apply filter_length_lt with (x := r); auto using eqb_males_contains.
    + rewrite Hsex. reflexivity.
    + rewrite Hsex. reflexivity.
Qed.

Lemma filter_gender_male_strict_subset_witness :
  let df := [mkRow "Males" 2000 1; mkRow "Males and females" 2000 2;
             mkRow "Females" 2000 3] in
  (length (filter_gender df "male") < length (filter_gender df "males"))%nat.
Proof.
  intros df.
  apply (filter_gender_male_strict_subset df (mkRow "Males and females" 2000 2)).
  - simpl. auto.
  - reflexivity.
Defined.

(** C10.  Whatever the expression, the filter decides on a row from the
    lower-cased category alone, so the letter case of the dataset plays no
    part; lower-casing the expression beforehand changes nothing either.
    The strict rules compare the lower-cased category with the literals
    "males" and "females", and a row of category "MALES" is kept for the
    expression "male". *)
Theorem filter_gender_case_insensitive :
  (forall gender, exists p : string -> bool, forall df,
      filter_gender df gender
      = List.filter (fun r => p (PyStr.lower (Sex r))) df)
  /\ (forall df gender,
        filter_gender df (PyStr.lower gender) = filter_gender df gender)
  /\ (forall df,
        filter_gender df "male"
        = List.filter (fun r => String.eqb (PyStr.lower (Sex r)) "males") df
        /\ filter_gender df "m"
           = List.filter (fun r => String.eqb (PyStr.lower (Sex r)) "males") df
        /\ filter_gender df "female"
           = List.filter (fun r => String.eqb (PyStr.lower (Sex r)) "females") df)
  /\ (forall df y v,
        In (mkRow "MALES" y v) df ->
        In (mkRow "MALES" y v) (filter_gender df "male")).
Proof.
  split; [|split; [|split]].
  - intros gender. unfold filter_gender.
    set (g := PyStr.lower (PyStr.strip gender)).
    destruct (PyStr.member g ["all"; ""]).
    { exists (fun _ => true). intros df. symmetry. apply filter_true. }
    destruct (PyStr.startswith g "males" || PyStr.startswith g "male"
              || String.eqb g "m").
    { destruct (String.eqb g "male" || String.eqb g "m").
      - exists (fun s => String.eqb s "males"). intros df.
        apply boolean_index_sex_lower.
      - exists (fun s => PyStr.contains s "males"). intros df.
        apply boolean_index_sex_lower. }
    destruct (PyStr.startswith g "female" || PyStr.startswith g "fem").
    { exists (fun s => String.eqb s "females"). intros df.
      apply boolean_index_sex_lower. }
    exists (fun s => String.eqb s g). intros df. apply boolean_index_sex_lower.
  - intros df gender. unfold filter_gender.
    rewrite PyStrFacts.strip_lower, PyStrFacts.lower_idem. reflexivity.
  - intros df. repeat split.
    + apply filter_gender_male.
    + unfold filter_gender. simpl. apply boolean_index_sex_lower.
    + unfold filter_gender. simpl. apply boolean_index_sex_lower.
  - intros df y v Hin. rewrite filter_gender_male.
    apply List.filter_In. split; [assumption|reflexivity].
Qed.

Lemma filter_gender_case_insensitive_witness :
  In (mkRow "MALES" 2000 1)
     (filter_gender [mkRow "Females" 2000 2; mkRow "MALES" 2000 1] "male").
Proof.
  apply filter_gender_case_insensitive. simpl. auto.
Defined.

(** ** Yearly aggregation *)

Lemma group_values_snoc_eq (pre : DataFrame) (r : Row) :
  group_values (pre ++ [r]) (Year r) = group_values pre (Year r) ++ [Value r].
Proof.
  unfold group_values. rewrite List.filter_app. simpl.
  rewrite Z.eqb_refl, map_app. reflexivity.
Qed.

Lemma group_values_snoc_ne (pre : DataFrame) (r : Row) (y : Z) :
  y <> Year r -> group_values (pre ++ [r]) y = group_values pre y.
Proof.
  intros Hne. unfold group_values. rewrite List.filter_app. simpl.
  destruct (Z.eqb_spec (Year r) y); [congruence|].
  rewrite app_nil_r. reflexivity.
Qed.

Lemma group_values_absent (pre : DataFrame) (y : Z) :
  ~ In y (map Year pre) -> group_values pre y = [].
Proof.
  intros Hnot. unfold group_values.
  assert (List.filter (fun r => Year r =? y) pre = []) as ->; [|reflexivity].
  induction pre as [|r pre IH]; simpl in *; [reflexivity|].
  destruct (Z.eqb_spec (Year r) y); [tauto|]. apply IH. tauto.
Qed.

Lemma group_add_keys (k : Z) (v : Q) (g : list (Z * list Q)) (x : Z) :
  In x (map fst (group_add k v g)) <-> x = k \/ In x (map fst g).
Proof.
  induction g as [|[k0 c0] g IH]; simpl.
  - intuition congruence.
  - destruct (Z.ltb_spec k k0); [simpl; intuition congruence|].
    destruct (Z.eqb_spec k k0); simpl; [intuition congruence|].
    rewrite IH. tauto.
Qed.

Lemma group_add_sorted (k : Z) (v : Q) (g : list (Z * list Q)) :
  StronglySorted Z.lt (map fst g) ->
  StronglySorted Z.lt (map fst (group_add k v g)).
Proof.
  induction g as [|[k0 c0] g IH]; simpl; intros Hs.
  - repeat constructor.
  - inversion Hs as [|? ? Hs' Hall]; subst.
    destruct (Z.ltb_spec k k0).
    + simpl. constructor; [exact Hs|]. constructor; [assumption|].
      eapply Forall_impl; [|exact Hall]. simpl. intros. lia.
    + destruct (Z.eqb_spec k k0); simpl; [exact Hs|].
      constructor; [auto|]. apply Forall_forall. intros x Hx.
      apply group_add_keys in Hx as [->|Hx]; [lia|].
      rewrite Forall_forall in Hall. auto.
Qed.

Lemma group_add_In (k : Z) (v : Q) (g : list (Z * list Q)) (k' : Z) (c' : list Q) :
  StronglySorted Z.lt (map fst g) ->
  In (k', c') (group_add k v g) ->
  (k' <> k /\ In (k', c') g)
  \/ (k' = k /\ ((~ In k (map fst g) /\ c' = [v])
                 \/ (exists c, In (k, c) g /\ c' = c ++ [v]))).
Proof.
  induction g as [|[k0 c0] g IH]; simpl; intros Hs Hin.
  - destruct Hin as [[= <- <-]|[]]. right. split; [reflexivity|]. left. tauto.
  - inversion Hs as [|? ? Hs' Hall]; subst. rewrite Forall_forall in Hall.
    assert (Hkeys : forall a b, In (a, b) g -> k0 < a).
    { intros a b Hab. apply Hall. change a with (fst (a, b)). apply in_map, Hab. }
    destruct (Z.ltb_spec k k0).
    + destruct Hin as [[= <- <-]|[[= <- <-]|Hin]].
      * right. split; [reflexivity|]. left. split; [|reflexivity].
        intros [->|Hk]; [lia|]. apply Hall in Hk. lia.
      * left. split; [lia|]. left. reflexivity.
      * left. split; [|right; exact Hin]. apply Hkeys in Hin. lia.
    + destruct (Z.eqb_spec k k0) as [->|Hne].
      * destruct Hin as [[= <- <-]|Hin].
        -- right. split; [reflexivity|]. right. exists c0. split; [left|]; reflexivity.
        -- left. split; [|right; exact Hin]. apply Hkeys in Hin. lia.
      * destruct Hin as [[= <- <-]|Hin].
        -- left. split; [lia|]. left. reflexivity.
        -- destruct (IH Hs' Hin) as [[? ?]|[-> [[Hnot ->]|(c & Hc & ->)]]].
           ++ left. tauto.
           ++ right. split; [reflexivity|]. left. split; [|reflexivity].
              intros [?|?]; [congruence|tauto].
           ++ right. split; [reflexivity|]. right. exists c. tauto.
Qed.

Lemma group_inv_step (pre : DataFrame) (g : list (Z * list Q)) (r : Row) :
  group_inv pre g ->
  group_inv (pre ++ [r]) (group_add (Year r) (Value r) g).
Proof.
  intros (Hs & Hcell & Hkeys). split; [|split].
  - apply group_add_sorted, Hs.
  - intros k c Hin.
    destruct (group_add_In _ _ _ _ _ Hs Hin)
      as [[Hne Hg]|[-> [[Hnot ->]|(c0 & Hg & ->)]]].
    + rewrite group_values_snoc_ne by assumption. auto.
    + rewrite group_values_snoc_eq, group_values_absent; [reflexivity|].
      rewrite <- Hkeys. exact Hnot.
    + rewrite group_values_snoc_eq, (Hcell _ _ Hg). reflexivity.
  - intros k. rewrite group_add_keys, map_app, in_app_iff, Hkeys. simpl.
    intuition congruence.
Qed.

Lemma group_inv_fold (l pre : DataFrame) (g : list (Z * list Q)) :
  group_inv pre g ->
  group_inv (pre ++ l)
    (fold_left (fun g r => group_add (Year r) (Value r) g) l g).
Proof.
  revert pre g. induction l as [|r l IH]; intros pre g Hinv; simpl.
  - rewrite app_nil_r. exact Hinv.
  - replace (pre ++ r :: l) with ((pre ++ [r]) ++ l)
      by (rewrite <- app_assoc; reflexivity).
    apply IH, group_inv_step, Hinv.
Qed.

Lemma groups_rows (df : DataFrame) (g : list (Z * list Q)) :
  fold_left (fun groups kv => group_add (fst kv) (snd kv) groups)
            (combine (map Year df) (map Value df)) g
  = fold_left (fun g r => group_add (Year r) (Value r) g) df g.
Proof.
  revert g. induction df as [|r df IH]; intros g; simpl; [reflexivity|]. apply IH.
Qed.

Lemma groups_inv (df : DataFrame) :
  group_inv df
    (fold_left (fun groups kv => group_add (fst kv) (snd kv) groups)
               (combine (map Year df) (map Value df)) []).
Proof.
  rewrite groups_rows. apply (group_inv_fold df [] []).
  split; [constructor|]. split; [intros ? ? []|]. simpl. tauto.
Qed.

Lemma sort_values_sorted (l : list (Z * Q)) :
  StronglySorted Z.lt (map fst l) -> sort_values l = l.
Proof.
  induction l as [|x l IH]; simpl; intros Hs; [reflexivity|].
  inversion Hs as [|? ? Hs' Hall]; subst. rewrite (IH Hs').
  destruct l as [|y l]; simpl; [reflexivity|].
  inversion Hall; subst. destruct (Z.leb_spec (fst x) (fst y)); [reflexivity|lia].
Qed.

Lemma StronglySorted_lt_NoDup (l : list Z) :
  StronglySorted Z.lt l -> List.NoDup l.
Proof.
  induction 1 as [|x l Hs IH Hall]; constructor; [|assumption].
  intros Hin. rewrite Forall_forall in Hall. apply Hall in Hin. lia.
Qed.

Lemma forallb_same_members {A : Type} (p : A -> bool) (l1 l2 : list A) :
  (forall x, In x l1 <-> In x l2) -> forallb p l1 = forallb p l2.
Proof.
  intros Hmem.
  destruct (forallb p l1) eqn:E1, (forallb p l2) eqn:E2; try reflexivity.
  - rewrite forallb_forall in E1. apply not_true_iff_false in E2.
    exfalso. apply E2, forallb_forall. intros x Hx. apply E1, Hmem, Hx.
  - rewrite forallb_forall in E2. apply not_true_iff_false in E1.
    exfalso. apply E1, forallb_forall. intros x Hx. apply E2, Hmem, Hx.
Qed.

Section AggregateFacts.

Variable representable : Z -> bool.
Variable group_sum : list Q -> Q.

(** The yearly frame before the timestamps are rebuilt, and what
    rebuilding them does to it. *)
Lemma aggregate_by_year_frame (df : DataFrame) :
  exists frame : YearlyFrame,
    aggregate_by_year representable group_sum df
    = (if forallb (year_timestamp representable) (map Year df) then Ok frame
       else Raise ValueError)
    /\ StronglySorted Z.lt (map YearInt frame)
    /\ (forall row, In row frame ->
          ValueAgg row = group_sum (group_values df (YearInt row)))
    /\ (forall y, In y (map YearInt frame) <-> In y (map Year df)).
Proof.
  unfold aggregate_by_year, groupby_sum, to_datetime_years.
  destruct (groups_inv df) as (Hs & Hcell & Hkeys).
  set (g := fold_left (fun groups kv => group_add (fst kv) (snd kv) groups)
                      (combine (map Year df) (map Value df)) []) in *.
  assert (Hfst : map fst (map (fun kc => (fst kc, group_sum (snd kc))) g)
                 = map fst g) by (rewrite map_map; reflexivity).
  rewrite sort_values_sorted by (rewrite Hfst; exact Hs).
  set (frame := map (fun kv => mkYearly (fst kv) (snd kv))
                    (map (fun kc => (fst kc, group_sum (snd kc))) g)).
  assert (Hyears : map YearInt frame = map fst g).
  { subst frame. rewrite !map_map. reflexivity. }
  exists frame. cbv zeta. fold frame. rewrite Hyears. split; [|split; [|split]].
  - rewrite (forallb_same_members (year_timestamp representable) _ _ Hkeys).
    destruct (forallb (year_timestamp representable) (map Year df)); reflexivity.
  - exact Hs.
  - intros row Hin. subst frame. rewrite map_map in Hin.
    apply in_map_iff in Hin as ([k c] & <- & Hin). simpl.
    rewrite (Hcell _ _ Hin). reflexivity.
  - exact Hkeys.
Qed.

Lemma aggregate_by_year_facts (df : DataFrame) (out : YearlyFrame) :
  aggregate_by_year representable group_sum df = Ok out ->
  StronglySorted Z.lt (map YearInt out)
  /\ (forall row, In row out ->
        ValueAgg row = group_sum (group_values df (YearInt row)))
  /\ (forall y, In y (map YearInt out) <-> In y (map Year df))
  /\ (forall r, In r df -> year_timestamp representable (Year r) = true).
Proof.
  destruct (aggregate_by_year_frame df) as (frame & -> & Hs & Htot & Hkeys).
  destruct (forallb (year_timestamp representable) (map Year df)) eqn:E; [|discriminate].
  intros [= <-]. repeat split; try assumption; try apply Hkeys.
  intros r Hr. rewrite forallb_forall in E. apply E, in_map, Hr.
Qed.

Lemma aggregate_by_year_returns (df : DataFrame) :
  (forall r, In r df -> year_timestamp representable (Year r) = true) ->
  exists out, aggregate_by_year representable group_sum df = Ok out.
Proof.
  intros Hall. destruct (aggregate_by_year_frame df) as (frame & -> & _).
  assert (forallb (year_timestamp representable) (map Year df) = true) as ->; [|eauto].
  apply forallb_forall. intros y Hy. apply in_map_iff in Hy as (r & <- & Hr). auto.
Qed.

Lemma aggregate_by_year_raises (df : DataFrame) (r : Row) :
  In r df -> year_timestamp representable (Year r) = false ->
  aggregate_by_year representable group_sum df = Raise ValueError.
Proof.
  intros Hr Hy. destruct (aggregate_by_year_frame df) as (frame & -> & _).
  destruct (forallb (year_timestamp representable) (map Year df)) eqn:E; [|reflexivity].
  rewrite forallb_forall in E. rewrite (E _ (in_map Year _ _ Hr)) in Hy.
  discriminate Hy.
Qed.


End AggregateFacts.



(** ** Sums over a yearly frame *)

Lemma fold_left_Qplus_acc (l : list Q) (a : Q) :
  (fold_left Qplus l a == a + fold_left Qplus l 0)%Q.
Proof.
  revert a. induction l as [|x l IH]; intros a; simpl.
  - ring.
  - rewrite (IH (a + x)%Q), (IH (0 + x)%Q). ring.
Qed.

Lemma qsum_cons (x : Q) (l : list Q) : (qsum (x :: l) == x + qsum l)%Q.
Proof.
  unfold qsum. simpl. rewrite fold_left_Qplus_acc. ring.
Qed.

Lemma count_cons {A : Type} (x : A) (l : list A) :
  (inject_Z (Z.of_nat (length (x :: l))) == 1 + inject_Z (Z.of_nat (length l)))%Q.
Proof.
  simpl length. rewrite Nat2Z.inj_succ. unfold Z.succ.
  rewrite inject_Z_plus. ring.
Qed.

Lemma Qsquare_nonneg (t : Q) : (0 <= t * t)%Q.
Proof.
  destruct (Qlt_le_dec t 0) as [Hneg|Hpos].
  - assert (E : (t * t == (- t) * (- t))%Q) by ring.
    rewrite E. apply Qmult_le_0_compat; lra.
  - apply Qmult_le_0_compat; assumption.
Qed.

Section Sums.

Context {A : Type}.

Lemma sumf_nil (f : A -> Q) : sumf f [] = 0%Q.
Proof. reflexivity. Qed.

Lemma sumf_cons (f : A -> Q) (x : A) (l : list A) :
  (sumf f (x :: l) == f x + sumf f l)%Q.
Proof. unfold sumf. simpl map. apply qsum_cons. Qed.

Lemma sumf_nonneg (f : A -> Q) (l : list A) :
  (forall x, 0 <= f x)%Q -> (0 <= sumf f l)%Q.
Proof.
  intros Hf. induction l as [|x l IH].
  - rewrite sumf_nil. apply Qle_refl.
  - rewrite sumf_cons. specialize (Hf x). lra.
Qed.

Lemma sumf_zero (f : A -> Q) (l : list A) :
  (forall x, 0 <= f x)%Q -> (sumf f l == 0)%Q ->
  forall x, In x l -> (f x == 0)%Q.
Proof.
  intros Hf. induction l as [|y l IH]; [intros _ ? []|].
  rewrite sumf_cons. intros Hsum x [->|Hin].
  - pose proof (sumf_nonneg f l Hf). specialize (Hf x). lra.
  - apply IH; [|assumption].
    pose proof (sumf_nonneg f l Hf). specialize (Hf y). lra.
Qed.

End Sums.

Lemma combine_map {A B C : Type} (f : A -> B) (g : A -> C) (l : list A) :
  combine (map f l) (map g l) = map (fun x => (f x, g x)) l.
Proof.
  induction l as [|x l IH]; simpl; congruence.
Qed.

(** ** Least squares on a yearly frame *)

Section LeastSquares.

Lemma cnt_cons (r : YearlyRow) (df : YearlyFrame) :
  (cnt (r :: df) == 1 + cnt df)%Q.
Proof. apply count_cons. Qed.

Lemma sse_expand (df : YearlyFrame) (a b : Q) :
  (sse df a b ==
     Syy df - 2 * a * Sxy df - 2 * b * Sy df
     + a * a * Sxx df + 2 * a * b * Sx df + cnt df * (b * b))%Q.
Proof.
  unfold sse, Syy, Sxy, Sy, Sxx, Sx.
  induction df as [|r df IH].
  - rewrite !sumf_nil. unfold cnt. simpl. ring.
  - rewrite !sumf_cons, cnt_cons, IH. ring.
Qed.

Lemma shift_expand (df : YearlyFrame) (u v : Q) :
  (sumf (fun r => (u * X r + v) * (u * X r + v))%Q df ==
     u * u * Sxx df + 2 * u * v * Sx df + cnt df * (v * v))%Q.
Proof.
  unfold Sxx, Sx.
  induction df as [|r df IH].
  - rewrite !sumf_nil. unfold cnt. simpl. ring.
  - rewrite !sumf_cons, cnt_cons, IH. ring.
Qed.

Lemma cnt_pos (df : YearlyFrame) : df <> [] -> (0 < cnt df)%Q.
Proof.
  intros Hne. destruct df as [|r df]; [congruence|].
  unfold cnt. change 0%Q with (inject_Z 0). rewrite <- Zlt_Qlt.
  simpl length. lia.
Qed.

(** [cnt * det] is a sum of squares. *)
Lemma det_squares (df : YearlyFrame) :
  (cnt df * det df ==
     sumf (fun r => (cnt df * X r + - Sx df) * (cnt df * X r + - Sx df))%Q df)%Q.
Proof.
  rewrite shift_expand. unfold det. ring.
Qed.

Lemma det_pos (df : YearlyFrame) :
  StronglySorted Z.lt (map YearInt df) -> (2 <= length df)%nat ->
  (0 < det df)%Q.
Proof.
  intros Hs Hlen.
  assert (Hn : (0 < cnt df)%Q) by (apply cnt_pos; destruct df; simpl in *; [lia|congruence]).
  assert (Hsq : forall r, (0 <= (cnt df * X r + - Sx df) * (cnt df * X r + - Sx df))%Q).
  { intros r. apply Qsquare_nonneg. }
  pose proof (sumf_nonneg _ df Hsq) as Hge. rewrite <- det_squares in Hge.
  destruct (Qlt_le_dec 0 (det df)) as [|Hle]; [assumption|exfalso].
  assert (Hz : (sumf (fun r => (cnt df * X r + - Sx df) * (cnt df * X r + - Sx df))%Q df == 0)%Q).
  { rewrite <- det_squares. nra. }
  pose proof (sumf_zero _ df Hsq Hz) as Hall.
  destruct df as [|r1 [|r2 df]]; simpl in Hlen; try lia.
  assert (H1 : (cnt (r1 :: r2 :: df) * X r1 == Sx (r1 :: r2 :: df))%Q).
  { specialize (Hall r1 (or_introl eq_refl)). nra. }
  assert (H2 : (cnt (r1 :: r2 :: df) * X r2 == Sx (r1 :: r2 :: df))%Q).
  { specialize (Hall r2 (or_intror (or_introl eq_refl))). nra. }
  assert (Hx : (X r1 == X r2)%Q).
  { apply Qmult_inj_l with (z := cnt (r1 :: r2 :: df)); [lra|].
    rewrite H1, H2. reflexivity. }
  unfold X in Hx. rewrite inject_Z_injective in Hx.
  simpl in Hs. inversion Hs as [|? ? _ Hall']; subst.
  inversion Hall'; subst. lia.
Qed.

(** The normal equations. *)
Lemma ols_normal (df : YearlyFrame) :
  StronglySorted Z.lt (map YearInt df) -> (2 <= length df)%nat ->
  (ols_slope df * Sxx df + ols_intercept df * Sx df == Sxy df)%Q
  /\ (ols_slope df * Sx df + ols_intercept df * cnt df == Sy df)%Q.
Proof.
  intros Hs Hlen. pose proof (det_pos df Hs Hlen) as Hd.
  assert (Hn : (0 < cnt df)%Q) by (apply cnt_pos; destruct df; simpl in *; [lia|congruence]).
  unfold ols_intercept, ols_slope. unfold det in *. split; field; split; lra.
Qed.

(** The fitted line has the least sum of squared residuals. *)
Lemma ols_least_squares (df : YearlyFrame) (a b : Q) :
  StronglySorted Z.lt (map YearInt df) -> (2 <= length df)%nat ->
  (sse df (ols_slope df) (ols_intercept df) <= sse df a b)%Q.
Proof.
  intros Hs Hlen. destruct (ols_normal df Hs Hlen) as [N1 N2].
  set (a0 := ols_slope df) in *. set (b0 := ols_intercept df) in *.
  assert (Hsq : (0 <= sumf (fun r => ((a - a0) * X r + (b - b0))
                                      * ((a - a0) * X r + (b - b0)))%Q df)%Q).
  { apply sumf_nonneg. intros r. apply Qsquare_nonneg. }
  rewrite shift_expand in Hsq. rewrite !sse_expand.
  nra.
Qed.

(** The exact line of a frame is the line of the normal equations. *)
Lemma exact_line_frame (df : YearlyFrame) :
  exact_line (map YearInt df) (map ValueAgg df) = (ols_slope df, ols_intercept df).
Proof.
  unfold exact_line, ols_intercept, ols_slope, det, cnt, Sx, Sy, Sxx, Sxy,
    sumf, count, sum_xy.
  rewrite !map_map, !length_map.
  rewrite (combine_map (fun r => inject_Z (YearInt r))
                       (fun r => inject_Z (YearInt r)) df).
  rewrite (combine_map (fun r => inject_Z (YearInt r)) ValueAgg df).
  rewrite !map_map. reflexivity.
Qed.

End LeastSquares.

(** ** The statistics engine on a frame with rows *)

Ltac case_members :=
  repeat match goal with
    | |- context [PyStr.member ?a ?s] => destruct (PyStr.member a s)
    end.

Ltac map_lookup :=
  repeat first
    [ rewrite lookup_insert_eq
    | rewrite lookup_insert_ne by (first [discriminate | congruence])
    | rewrite lookup_empty ];
  try reflexivity.

Section EngineFacts.

Variable lstsq_line : list Z -> list Q -> Q * Q.

Lemma member_In (x : string) (xs : list string) :
  PyStr.member x xs = true <-> In x xs.
Proof.
  unfold PyStr.member. rewrite existsb_exists. split.
  - intros (y & Hin & Heq). apply String.eqb_eq in Heq. congruence.
  - intros Hin. exists x. split; [assumption|apply String.eqb_refl].
Qed.

Lemma nth_error_last {A : Type} (l : list A) (d : A) :
  l <> [] -> nth_error l (length l - 1) = Some (List.last l d).
Proof.
  induction l as [|x l IH]; [congruence|]. intros _.
  destruct l as [|y l]; [reflexivity|].
  replace (length (x :: y :: l) - 1)%nat with (S (length (y :: l) - 1))
    by (simpl; lia).
  cbn [nth_error]. rewrite IH by discriminate. reflexivity.
Qed.

Lemma Qabs_nonzero (x : Q) : ~ (x == 0)%Q -> ~ (Qabs x == 0)%Q.
Proof.
  intros Hx. apply Qabs_case; intros; lra.
Qed.

Lemma polyfit1_frame (df : YearlyFrame) :
  df <> [] ->
  polyfit1 lstsq_line (map YearInt df) (map ValueAgg df)
  = Ok (lstsq_line (map YearInt df) (map ValueAgg df)).
Proof.
  intros Hne. unfold polyfit1. rewrite !length_map, Nat.eqb_refl.
  destruct df as [|r df]; [congruence|]. reflexivity.
Qed.

Lemma iloc_last_cons (x : Q) (l : list Q) :
  iloc_last (x :: l) = Ok (List.last (x :: l) x).
Proof.
  unfold iloc_last, iloc. rewrite (nth_error_last (x :: l) x) by discriminate.
  reflexivity.
Qed.

Lemma truediv_abs (a first : Q) :
  Qeq_bool first 0 = false ->
  truediv a (Qabs first) = Ok (a / Qabs first)%Q.
Proof.
  intros Hz. unfold truediv.
  destruct (Qeq_bool (Qabs first) 0) eqn:E; [|reflexivity].
  apply Qeq_bool_iff in E. apply Qeq_bool_neq in Hz.
  destruct (Qabs_nonzero first Hz E).
Qed.

(** On a frame with rows the engine raises nothing, and its result is the
    three parts above, one after the other. *)
Lemma calculate_statistics_rows (df : YearlyFrame) (stats : list string) :
  df <> [] ->
  calculate_statistics lstsq_line df stats
  = Ok (trend_part lstsq_line df stats
          (percent_part (map ValueAgg df) stats
             (basic_stats (map ValueAgg df) stats))).
Proof.
  intros Hne. unfold calculate_statistics.
  pose proof (polyfit1_frame df Hne) as Hfit.
  destruct df as [|r df]; [congruence|].
  cbn [length map Nat.eqb]. cbn [length map Nat.eqb] in Hfit.
  cbv zeta. fold (basic_stats (ValueAgg r :: map ValueAgg df) stats).
  unfold percent_part, trend_part. cbn [map].
  generalize (basic_stats (ValueAgg r :: map ValueAgg df) stats). intros R.
  rewrite iloc_last_cons, Hfit, length_map.
  cbn [iloc nth_error length].
  destruct (lstsq_line (YearInt r :: map YearInt df)
                       (ValueAgg r :: map ValueAgg df)) as [slope intercept].
  destruct (PyStr.member "percent change" stats);
    destruct (PyStr.member "trend" stats);
    destruct (2 <=? S (length df))%nat;
    cbn [mbind result_bind]; cbv beta iota;
    try reflexivity;
    destruct (Qeq_bool (ValueAgg r) 0) eqn:E;
    cbn [mbind result_bind]; cbv beta iota;
    try reflexivity;
    rewrite (truediv_abs _ _ E); reflexivity.
Qed.

Lemma member_filter_recognized (k : string) (stats : list string) :
  recognized k = true ->
  PyStr.member k (List.filter recognized stats) = PyStr.member k stats.
Proof.
  intros Hk. induction stats as [|s stats IH]; [reflexivity|].
  simpl List.filter. destruct (recognized s) eqn:Es.
  - unfold PyStr.member in *. simpl. rewrite IH. reflexivity.
  - unfold PyStr.member in *. simpl. rewrite IH.
    destruct (String.eqb_spec k s) as [->|_]; [congruence|reflexivity].
Qed.

Lemma member_unrecognized (k : string) (stats : list string) :
  recognized k = true ->
  (forall s, In s stats -> recognized s = false) ->
  PyStr.member k stats = false.
Proof.
  intros Hk Hall. destruct (PyStr.member k stats) eqn:E; [|reflexivity].
  apply member_In, Hall in E. congruence.
Qed.

(** C2.  On the yearly frame without rows the engine returns, whatever was
    asked for, a mapping whose only key is "Error", bound to a text that is
    not empty; no statistic label has an entry. *)
Theorem calculate_statistics_empty_series (stats : list string) :
  exists (m : gmap string pyval) (msg : string),
    calculate_statistics lstsq_line [] stats = Ok m
    /\ m = {[ "Error" := VStr msg ]}
    /\ dom m = ({[ "Error" ]} : gset string)
    /\ msg <> ""
    /\ forall k, k <> "Error" -> m !! k = None.
Proof.
  eexists _, _. split; [reflexivity|]. split; [reflexivity|].
  split; [apply dom_singleton_L|]. split; [discriminate|].
  intros k Hk. apply lookup_singleton_ne. congruence.
Qed.

(** *** Entries of the result, label by label *)

Lemma basic_stats_other (series : list Q) (stats : list string) (k : string) :
  k <> "Average" -> k <> "Max" -> k <> "Min" -> k <> "Median" ->
  k <> "Std Dev" ->
  basic_stats series stats !! k = None.
Proof.
  intros. unfold basic_stats. cbv zeta. case_members; map_lookup.
Qed.

Lemma basic_stats_lookup (series : list Q) (stats : list string) :
  basic_stats series stats !! "Average"
  = (if PyStr.member "average" stats then Some (series_mean series) else None)
  /\ basic_stats series stats !! "Max"
     = (if PyStr.member "max" stats then Some (series_max series) else None)
  /\ basic_stats series stats !! "Min"
     = (if PyStr.member "min" stats then Some (series_min series) else None)
  /\ basic_stats series stats !! "Median"
     = (if PyStr.member "median" stats then Some (series_median series) else None)
  /\ basic_stats series stats !! "Std Dev"
     = (if PyStr.member "stddev" stats then Some (series_std 1 series) else None).
Proof.
  unfold basic_stats. cbv zeta.
  destruct (PyStr.member "average" stats), (PyStr.member "max" stats),
    (PyStr.member "min" stats), (PyStr.member "median" stats),
    (PyStr.member "stddev" stats);
    repeat split; map_lookup.
Qed.

Lemma percent_part_other (series : list Q) (stats : list string)
  (R : gmap string pyval) (k : string) :
  k <> "Percent Change (%)" -> k <> "Percent Change Note" ->
  percent_part series stats R !! k = R !! k.
Proof.
  intros. unfold percent_part.
  destruct (PyStr.member "percent change" stats); [|reflexivity].
  destruct series as [|first rest]; [reflexivity|].
  destruct (Qeq_bool first 0); map_lookup.
Qed.

Lemma trend_part_other (df : YearlyFrame) (stats : list string)
  (R : gmap string pyval) (k : string) :
  k <> "Trend Intercept" -> k <> "Trend Slope (value per year)" ->
  k <> "Trend" ->
  trend_part lstsq_line df stats R !! k = R !! k.
Proof.
  intros. unfold trend_part.
  destruct (PyStr.member "trend" stats); [|reflexivity].
  destruct (2 <=? length df)%nat; [destruct (lstsq_line _ _)|]; map_lookup.
Qed.




Lemma labels_of_unrecognized (name : string) :
  recognized name = false -> labels_of name = [].
Proof.
  unfold recognized, vocabulary, PyStr.member, labels_of. simpl.
  repeat (destruct (String.eqb name _); [discriminate|]). reflexivity.
Qed.

Lemma result_entry_requested (df : YearlyFrame) (stats : list string) (k : string) :
  is_Some (trend_part lstsq_line df stats
             (percent_part (map ValueAgg df) stats
                (basic_stats (map ValueAgg df) stats)) !! k) ->
  exists name, In name stats /\ In k (labels_of name).
Proof.
  set (series := map ValueAgg df).
  destruct (basic_stats_lookup series stats) as (Ha & Hmax & Hmin & Hmed & Hstd).
  assert (Hreq : forall name, PyStr.member name stats = true ->
                              In k (labels_of name) ->
                              exists name, In name stats /\ In k (labels_of name)).
  { intros name Hm Hk. exists name. split; [apply member_In, Hm|exact Hk]. }
  destruct (String.eqb_spec k "Trend Intercept") as [->|N1].
  { unfold trend_part. destruct (PyStr.member "trend" stats) eqn:E.
    - intros _. apply (Hreq "trend" E). simpl. auto.
    - rewrite percent_part_other, basic_stats_other by discriminate.
      intros [? [=]]. }
  destruct (String.eqb_spec k "Trend Slope (value per year)") as [->|N2].
  { unfold trend_part. destruct (PyStr.member "trend" stats) eqn:E.
    - intros _. apply (Hreq "trend" E). simpl. auto.
    - rewrite percent_part_other, basic_stats_other by discriminate.
      intros [? [=]]. }
  destruct (String.eqb_spec k "Trend") as [->|N3].
  { unfold trend_part. destruct (PyStr.member "trend" stats) eqn:E.
    - intros _. apply (Hreq "trend" E). simpl. auto.
    - rewrite percent_part_other, basic_stats_other by discriminate.
      intros [? [=]]. }
  rewrite trend_part_other by assumption.
  destruct (String.eqb_spec k "Percent Change (%)") as [->|N4].
  { unfold percent_part. destruct (PyStr.member "percent change" stats) eqn:E.
    - intros _. apply (Hreq "percent change" E). simpl. auto.
    - rewrite basic_stats_other by discriminate. intros [? [=]]. }
  destruct (String.eqb_spec k "Percent Change Note") as [->|N5].
  { unfold percent_part. destruct (PyStr.member "percent change" stats) eqn:E.
    - intros _. apply (Hreq "percent change" E). simpl. auto.
    - rewrite basic_stats_other by discriminate. intros [? [=]]. }
  rewrite percent_part_other by assumption.
  destruct (String.eqb_spec k "Average") as [->|N6].
  { rewrite Ha. destruct (PyStr.member "average" stats) eqn:E; [|intros [? [=]]].
    intros _. apply (Hreq "average" E). simpl. auto. }
  destruct (String.eqb_spec k "Max") as [->|N7].
  { rewrite Hmax. destruct (PyStr.member "max" stats) eqn:E; [|intros [? [=]]].
    intros _. apply (Hreq "max" E). simpl. auto. }
  destruct (String.eqb_spec k "Min") as [->|N8].
  { rewrite Hmin. destruct (PyStr.member "min" stats) eqn:E; [|intros [? [=]]].
    intros _. apply (Hreq "min" E). simpl. auto. }
  destruct (String.eqb_spec k "Median") as [->|N9].
  { rewrite Hmed. destruct (PyStr.member "median" stats) eqn:E; [|intros [? [=]]].
    intros _. apply (Hreq "median" E). simpl. auto. }
  destruct (String.eqb_spec k "Std Dev") as [->|N10].
  { rewrite Hstd. destruct (PyStr.member "stddev" stats) eqn:E; [|intros [? [=]]].
    intros _. apply (Hreq "stddev" E). simpl. auto. }
  rewrite basic_stats_other by assumption. intros [? [=]].
Qed.

Lemma requested_entry_present (df : YearlyFrame) (stats : list string) (name : string) :
  df <> [] -> In name stats -> recognized name = true ->
  exists k, In k (labels_of name)
            /\ is_Some (trend_part lstsq_line df stats
                          (percent_part (map ValueAgg df) stats
                             (basic_stats (map ValueAgg df) stats)) !! k).
Proof.
  intros Hne Hin Hrec. apply member_In in Hin.
  set (series := map ValueAgg df).
  destruct (basic_stats_lookup series stats) as (Ha & Hmax & Hmin & Hmed & Hstd).
  unfold recognized, vocabulary, PyStr.member in Hrec. simpl in Hrec.
  repeat match type of Hrec with
    | (String.eqb name ?s || _) = true =>
        destruct (String.eqb_spec name s) as [->|_]; simpl in Hrec
    end; try discriminate.
  - exists "Average". split; [simpl; auto|].
    rewrite trend_part_other, percent_part_other, Ha, Hin by discriminate. eauto.
  - exists "Max". split; [simpl; auto|].
    rewrite trend_part_other, percent_part_other, Hmax, Hin by discriminate. eauto.
  - exists "Min". split; [simpl; auto|].
    rewrite trend_part_other, percent_part_other, Hmin, Hin by discriminate. eauto.
  - exists "Median". split; [simpl; auto|].
    rewrite trend_part_other, percent_part_other, Hmed, Hin by discriminate. eauto.
  - exists "Std Dev". split; [simpl; auto|].
    rewrite trend_part_other, percent_part_other, Hstd, Hin by discriminate. eauto.
  - exists "Percent Change (%)". split; [simpl; auto|].
    rewrite trend_part_other by discriminate. unfold percent_part. rewrite Hin.
    destruct df as [|r df]; [congruence|]. subst series. cbn [map].
    destruct (Qeq_bool (ValueAgg r) 0).
    + rewrite lookup_insert_ne, lookup_insert_eq by discriminate. eauto.
    + rewrite lookup_insert_eq. eauto.
  - unfold trend_part. rewrite Hin. destruct (2 <=? length df)%nat.
    + exists "Trend Intercept". split; [simpl; auto|].
      destruct (lstsq_line _ _). rewrite lookup_insert_eq. eauto.
    + exists "Trend". split; [simpl; auto|].
      rewrite lookup_insert_eq. eauto.
Qed.

(** C9.  On a frame with rows the engine returns a mapping for every
    requested list.  The result is the one obtained from the recognized
    names of the list alone; every entry of it stands under a label of a
    requested name, and names outside the vocabulary have no label; every
    recognized name of the list has an entry.  When no name of the list is
    recognized the mapping is empty. *)
Theorem calculate_statistics_ignores_unknown (df : YearlyFrame) (stats : list string) :
  df <> [] ->
  exists m : gmap string pyval,
    calculate_statistics lstsq_line df stats = Ok m
    /\ calculate_statistics lstsq_line df (List.filter recognized stats) = Ok m
    /\ (forall k, is_Some (m !! k) ->
          exists name, In name stats /\ recognized name = true
                       /\ In k (labels_of name))
    /\ (forall name, In name stats -> recognized name = true ->
          exists k, In k (labels_of name) /\ is_Some (m !! k))
    /\ (forall name, recognized name = false -> labels_of name = [])
    /\ ((forall name, In name stats -> recognized name = false) -> m = ∅).
Proof.
  intros Hne. eexists. split; [apply calculate_statistics_rows, Hne|].
  split; [|split; [|split; [|split]]].
  - rewrite calculate_statistics_rows by assumption.
    unfold trend_part, percent_part, basic_stats.
    rewrite !member_filter_recognized by reflexivity. reflexivity.
  - intros k Hk. destruct (result_entry_requested df stats k Hk) as (name & Hin & Hl).
    exists name. split; [assumption|]. split; [|assumption].
    destruct (recognized name) eqn:E; [reflexivity|].
    rewrite (labels_of_unrecognized _ E) in Hl. destruct Hl.
  - intros name Hin Hrec. apply requested_entry_present; assumption.
  - apply labels_of_unrecognized.
  - intros Hall. unfold trend_part, percent_part, basic_stats.
    rewrite !(member_unrecognized _ stats) by (reflexivity || exact Hall).
    reflexivity.
Qed.

(** ** Moving-average overlay *)

Lemma firstn_nth_seq {A : Type} (l : list A) (d : A) (n : nat) :
  (n <= length l)%nat ->
  firstn n l = map (fun k => nth k l d) (seq 0 n).
Proof.
  revert n. induction l as [|x l IH]; intros n Hn.
  - simpl in Hn. replace n with 0%nat by lia. reflexivity.
  - destruct n as [|n]; [reflexivity|]. simpl in Hn.
    cbn [firstn seq map nth]. rewrite <- seq_shift, map_map.
    rewrite (IH n) by lia. reflexivity.
Qed.

Lemma window_at_seq (values : list Q) (i : nat) :
  (i < length values)%nat ->
  window_at 3 values i
  = map (fun k => nth k values 0%Q) (seq (i + 1 - 3) (i + 1 - (i + 1 - 3))).
Proof.
  intros Hi. unfold window_at.
  rewrite (firstn_nth_seq values 0%Q (i + 1)) by lia.
  rewrite skipn_map, skipn_seq. reflexivity.
Qed.

Lemma nth_map_seq {B : Type} (f : nat -> B) (n i : nat) (d : B) :
  (i < n)%nat -> nth i (map f (seq 0 n)) d = f i.
Proof.
  intros Hi.
  rewrite (nth_indep _ d (f 0%nat)) by (rewrite length_map, length_seq; exact Hi).
  rewrite (map_nth f), seq_nth by exact Hi. reflexivity.
Qed.

Lemma rolling_mean_nth (values : list Q) (i : nat) :
  (i < length values)%nat ->
  nth i (rolling_mean 3 1 values) VNaN
  = VNum (qsum (window_at 3 values i) / count (window_at 3 values i)).
Proof.
  intros Hi. unfold rolling_mean. rewrite nth_map_seq by exact Hi.
  assert (Hlen : length (window_at 3 values i) = (i + 1 - (i + 1 - 3))%nat).
  { rewrite window_at_seq by exact Hi. rewrite length_map, length_seq. reflexivity. }
  destruct (window_at 3 values i) as [|x w] eqn:Ew.
  - simpl in Hlen. lia.
  - reflexivity.
Qed.

Lemma plot_all_charts_moving_average (df : YearlyFrame) (stats : list string) :
  exists ch, plot_all_charts lstsq_line df stats = Ok ch
             /\ moving_average ch
                = if PyStr.member "moving average" stats
                  then Some (rolling_mean 3 1 (map ValueAgg df)) else None.
Proof.
  unfold plot_all_charts.
  destruct (PyStr.member "trend" stats && (2 <=? length df)%nat) eqn:E.
  - apply andb_prop in E as [_ E]. apply Nat.leb_le in E.
    rewrite polyfit1_frame by (destruct df; simpl in E; [lia|discriminate]).
    destruct (lstsq_line _ _). cbn [mbind result_bind]. eexists. split; reflexivity.
  - cbn [mbind result_bind]. eexists. split; reflexivity.
Qed.

(** C7.  When "moving average" is asked for, the chart is produced and its
    overlay has one value per row of the series; the value at position [i]
    is the mean of the totals at the positions [max(0, i-2)] to [i], a
    window of [min(3, i+1)] values.  On the totals 10, 20, 30, 40 the
    overlay is 10, 15, 20, 30. *)
Theorem moving_average_trailing_window :
  (forall (df : YearlyFrame) (stats : list string),
      In "moving average" stats ->
      exists ch ma,
        plot_all_charts lstsq_line df stats = Ok ch
        /\ moving_average ch = Some ma
        /\ length ma = length df
        /\ forall i, (i < length df)%nat ->
             exists q, nth i ma VNaN = VNum q
                       /\ (q == trailing_mean (map ValueAgg df) i)%Q)
  /\ (exists ch a b c d,
        plot_all_charts lstsq_line
          [mkYearly 2000 10; mkYearly 2001 20; mkYearly 2002 30; mkYearly 2003 40]
          ["moving average"] = Ok ch
        /\ moving_average ch = Some [VNum a; VNum b; VNum c; VNum d]
        /\ (a == 10)%Q /\ (b == 15)%Q /\ (c == 20)%Q /\ (d == 30)%Q).
Proof.
  split.
  - intros df stats Hreq. apply member_In in Hreq.
    destruct (plot_all_charts_moving_average df stats) as (ch & Hch & Hma).
    rewrite Hreq in Hma. exists ch, (rolling_mean 3 1 (map ValueAgg df)).
    split; [exact Hch|]. split; [exact Hma|]. split.
    + unfold rolling_mean. rewrite length_map, length_seq, length_map. reflexivity.
    + intros i Hi. set (values := map ValueAgg df).
      assert (Hi' : (i < length values)%nat) by (subst values; rewrite length_map; exact Hi).
      eexists. split; [apply rolling_mean_nth, Hi'|].
      unfold trailing_mean, count. rewrite window_at_seq by exact Hi'.
      rewrite length_map, length_seq.
      replace (Z.to_nat (Z.max 0 (Z.of_nat i - 2))) with (i + 1 - 3)%nat by lia.
      replace (Z.min 3 (Z.of_nat i + 1)) with (Z.of_nat (i + 1 - (i + 1 - 3))) by lia.
      reflexivity.
  - eexists _, _, _, _, _. split; [reflexivity|]. split; [reflexivity|].
    repeat split.
Qed.

End EngineFacts.




Lemma calculate_statistics_ignores_unknown_witness :
  exists m : gmap string pyval,
    calculate_statistics exact_line collinear_series ["mode"; "variance"] = Ok m
    /\ m = ∅.
Proof.
  destruct (calculate_statistics_ignores_unknown exact_line
              collinear_series ["mode"; "variance"]) as (m & Hm & _ & _ & _ & _ & He).
  - discriminate.
  - exists m. split; [exact Hm|]. apply He.
    intros name [<-|[<-|[]]]; reflexivity.
Defined.

Lemma moving_average_trailing_window_witness :
  exists ch ma,
    plot_all_charts exact_line collinear_series ["trend"; "moving average"] = Ok ch
    /\ moving_average ch = Some ma /\ length ma = 3%nat.
Proof.
  destruct (moving_average_trailing_window exact_line) as [H _].
  destruct (H collinear_series ["trend"; "moving average"])
    as (ch & ma & Hch & Hma & Hlen & _).
  - simpl. auto.
  - exists ch, ma. auto.
Defined.

(** ** Further checks of the model *)

(** The expressions "all" and the empty one return the frame itself. *)
Example filter_gender_all_identity (df : DataFrame) :
  filter_gender df "all" = df /\ filter_gender df "" = df
  /\ filter_gender df "  ALL " = df.
Proof. repeat split. Qed.

(** Filtering twice on the same bounds is filtering once. *)
Example filter_year_range_idempotent (df : DataFrame) (s e : Z) :
  filter_year_range (filter_year_range df s e) s e = filter_year_range df s e.
Proof.
  rewrite !filter_year_range_filter.
  induction df as [|r df IH]; simpl; [reflexivity|].
  destruct ((Year r >=? s) && (Year r <=? e)) eqn:E; simpl; rewrite ?E, IH;
    reflexivity.
Qed.

(** The average of the totals 10, 20, 30 is 20. *)
Example average_example (lstsq_line : list Z -> list Q -> Q * Q) :
  exists (m : gmap string pyval) (q : Q),
    calculate_statistics lstsq_line
      [mkYearly 2000 10; mkYearly 2001 20; mkYearly 2002 30] ["average"] = Ok m
    /\ m !! "Average" = Some (VNum q) /\ (q == 20)%Q.
Proof.
  eexists _, _. split; [reflexivity|]. split; [reflexivity|]. reflexivity.
Qed.

(** The whole pipeline on a small dataset: load, keep the strict male rows
    of 2000 to 2001, sum per year (exactly). *)
Example pipeline_example :
  aggregate_by_year ns_year qsum
    (filter_year_range
       (filter_gender
          (load_dataset ns_year read_integer
             [mkRaw "Males" "2001" "4"; mkRaw "Males and females" "2001" "9";
              mkRaw "males" "2000" "1"; mkRaw "Males" "2001" "6";
              mkRaw "Males" "year" "5"; mkRaw "Males" "2002" "8"])
          "Male")
       2000 2001)
  = Ok [mkYearly 2000 (0 + 1); mkYearly 2001 (0 + 4 + 6)].
Proof. reflexivity. Qed.

(** * Further properties of the program *)

(** ** The two filters together *)

Lemma boolean_index_sublist {A : Type} (df : list A) (mask : list bool) :
  sublist (boolean_index df mask) df.
Proof.
  revert mask. induction df as [|r df IH]; intros mask.
  - destruct mask; constructor.
  - destruct mask as [|b mask]; simpl; [apply sublist_nil_l|].
    destruct b; [apply sublist_skip|apply sublist_cons]; apply IH.
Qed.

Lemma filter_gender_as_filter (gender : string) :
  exists p : string -> bool, forall df,
    filter_gender df gender
    = List.filter (fun r => p (PyStr.lower (Sex r))) df.
Proof.
  unfold filter_gender.
  set (g := PyStr.lower (PyStr.strip gender)).
  destruct (PyStr.member g ["all"; ""]).
  { exists (fun _ => true). intros df. symmetry. apply filter_true. }
  destruct (PyStr.startswith g "males" || PyStr.startswith g "male"
            || String.eqb g "m").
  { destruct (String.eqb g "male" || String.eqb g "m").
    - exists (fun s => String.eqb s "males"). intros df.
      apply boolean_index_sex_lower.
    - exists (fun s => PyStr.contains s "males"). intros df.
      apply boolean_index_sex_lower. }
  destruct (PyStr.startswith g "female" || PyStr.startswith g "fem").
  { exists (fun s => String.eqb s "females"). intros df.
    apply boolean_index_sex_lower. }
  exists (fun s => String.eqb s g). intros df. apply boolean_index_sex_lower.
Qed.

Lemma filter_filter {A : Type} (p q : A -> bool) (l : list A) :
  List.filter q (List.filter p l) = List.filter (fun x => p x && q x) l.
Proof.
  induction l as [|x l IH]; simpl; [reflexivity|].
  destruct (p x); simpl; [destruct (q x)|]; rewrite IH; reflexivity.
Qed.

(** X1.  Whatever the expression, the gender filter returns rows of the
    frame in their order, none twice and none invented, and filtering the
    result again with the same expression changes nothing. *)
Theorem filter_gender_sublist_idempotent (df : DataFrame) (gender : string) :
  sublist (filter_gender df gender) df
  /\ filter_gender (filter_gender df gender) gender = filter_gender df gender.
Proof.
  split.
  - unfold filter_gender.
    repeat match goal with
      | |- context [if ?b then _ else _] => destruct b
      end; first [reflexivity | apply boolean_index_sublist].
  - destruct (filter_gender_as_filter gender) as [p Hp].
    rewrite !Hp, filter_filter. apply List.filter_ext.
    intros r. apply andb_diag.
Qed.

(** X2.  The gender filter and the year-range filter can be applied in
    either order. *)
Theorem filters_commute (df : DataFrame) (gender : string) (start_year end_year : Z) :
  filter_year_range (filter_gender df gender) start_year end_year
  = filter_gender (filter_year_range df start_year end_year) gender.
Proof.
  destruct (filter_gender_as_filter gender) as [p Hp].
  rewrite !Hp, !filter_year_range_filter, !filter_filter.
  apply List.filter_ext. intros r. apply andb_comm.
Qed.

(** X3.  Two year ranges applied one after the other select the
    intersection of the ranges. *)
Theorem filter_year_range_twice (df : DataFrame) (s1 e1 s2 e2 : Z) :
  filter_year_range (filter_year_range df s1 e1) s2 e2
  = filter_year_range df (Z.max s1 s2) (Z.min e1 e2).
Proof.
  rewrite !filter_year_range_filter, filter_filter.
  apply List.filter_ext. intros r.
  destruct (Z.geb_spec (Year r) s1), (Z.leb_spec (Year r) e1),
    (Z.geb_spec (Year r) s2), (Z.leb_spec (Year r) e2),
    (Z.geb_spec (Year r) (Z.max s1 s2)), (Z.leb_spec (Year r) (Z.min e1 e2));
    simpl; try reflexivity; lia.
Qed.

(** X4.  The year-range filter returns the frame unchanged exactly when
    every row lies in the range. *)
Theorem filter_year_range_identity (df : DataFrame) (start_year end_year : Z) :
  filter_year_range df start_year end_year = df
  <-> (forall r, In r df -> start_year <= Year r <= end_year).
Proof.
  rewrite filter_year_range_filter. split.
  - intros Heq r Hin. rewrite <- Heq in Hin.
    apply List.filter_In in Hin as [_ H]. apply andb_prop in H as [H1 H2].
    apply Z.geb_le in H1. apply Z.leb_le in H2. lia.
  - intros Hall. induction df as [|r df IH]; simpl; [reflexivity|].
    assert (Hr : start_year <= Year r <= end_year) by (apply Hall; simpl; auto).
    destruct (Z.geb_spec (Year r) start_year); [|lia].
    destruct (Z.leb_spec (Year r) end_year); [|lia].
    simpl. f_equal. apply IH. intros r' Hin. apply Hall. simpl. auto.
Qed.

Lemma filter_year_range_identity_witness :
  filter_year_range [mkRow "Males" 2001 1; mkRow "Males" 2003 2] 2000 2005
  = [mkRow "Males" 2001 1; mkRow "Males" 2003 2].
Proof.
  apply filter_year_range_identity.
  intros r [<-|[<-|[]]]; simpl; lia.
Defined.

(** X5.  An expression that, trimmed and lower-cased, starts with "male"
    without being "male" itself (such as "Males" or "males and females")
    keeps every row whose lower-cased category contains "males".  The rows
    of category "Females" are among them, as are the combined ones: this
    rule never selects the male rows alone. *)
Theorem filter_gender_male_prefix_keeps_females (df : DataFrame) (gender : string) :
  PyStr.startswith (PyStr.lower (PyStr.strip gender)) "male" = true ->
  PyStr.lower (PyStr.strip gender) <> "male" ->
  filter_gender df gender
  = List.filter (fun r => PyStr.contains (PyStr.lower (Sex r)) "males") df
  /\ (forall r, In r df ->
        PyStr.lower (Sex r) = "females"
        \/ PyStr.lower (Sex r) = "males and females"
        \/ PyStr.lower (Sex r) = "males" ->
        In r (filter_gender df gender)).
Proof.
  intros Hs Hne.
  assert (Heq : filter_gender df gender
                = List.filter (fun r => PyStr.contains (PyStr.lower (Sex r)) "males") df).
  { unfold filter_gender.
    remember (PyStr.lower (PyStr.strip gender)) as g eqn:Eg. clear Eg.
    destruct g as [|a [|b [|c [|d rest]]]]; cbn [PyStr.startswith] in Hs;
      rewrite ?andb_false_r in Hs; try discriminate.
    repeat (apply andb_prop in Hs as [?%Ascii.eqb_eq Hs]). subst a b c d.
    assert (Hmale : String.eqb (String "m" (String "a" (String "l" (String "e" rest))))
                               "male" = false)
      by (apply String.eqb_neq; exact Hne).
    assert (Hstart : PyStr.startswith
                       (String "m" (String "a" (String "l" (String "e" rest))))
                       "male" = true)
      by (cbn [PyStr.startswith]; rewrite Hs; reflexivity).
    change (PyStr.member (String "m" (String "a" (String "l" (String "e" rest))))
              ["all"; ""]) with false.
    rewrite Hstart, orb_true_r, Hmale. cbn [orb String.eqb Ascii.eqb Bool.eqb].
    apply boolean_index_sex_lower. }
  split; [exact Heq|].
  intros r Hin Hsex. rewrite Heq. apply List.filter_In. split; [exact Hin|].
  destruct Hsex as [-> | [-> | ->]]; reflexivity.
Qed.

Lemma filter_gender_male_prefix_keeps_females_witness :
  In (mkRow "Females" 2000 3)
     (filter_gender [mkRow "Males" 2000 1; mkRow "Females" 2000 3] " Males ").
Proof.
  apply (filter_gender_male_prefix_keeps_females
           [mkRow "Males" 2000 1; mkRow "Females" 2000 3] " Males ");
    [reflexivity | discriminate | simpl; auto | left; reflexivity].
Defined.

(** ** Loader *)

Lemma digit_of_bounds (c : ascii) (x : Z) : digit_of c = Some x -> 0 <= x <= 9.
Proof.
  unfold digit_of.
  destruct (_ && _)%N eqn:E; [|discriminate].
  intros [= <-]. apply andb_prop in E as [E1 E2].
  apply N.leb_le in E1, E2. lia.
Qed.

Lemma strptime_Y_bounds (s : string) (y : Z) :
  strptime_Y s = Some y -> 0 <= y <= 9999.
Proof.
  destruct s as [|a [|b [|c [|d [|? ?]]]]]; simpl; try discriminate.
  destruct (digit_of a) as [x1|] eqn:Ea; [|discriminate].
  destruct (digit_of b) as [x2|] eqn:Eb; [|discriminate].
  destruct (digit_of c) as [x3|] eqn:Ec; [|discriminate].
  destruct (digit_of d) as [x4|] eqn:Ed; [|discriminate].
  apply digit_of_bounds in Ea, Eb, Ec, Ed. intros [= <-]. lia.
Qed.

Lemma dropna_sublist (cells : list (string * option Z * option Q)) :
  sublist (map Sex (dropna cells)) (map (fun c => fst (fst c)) cells).
Proof.
  induction cells as [|[[s [y|]] [v|]] cells IH]; simpl;
    first [constructor; exact IH | constructor].
Qed.

(** X6.  Every loaded row has a year between 0 and 9999 that the timestamp
    type can hold; the loaded frame keeps the order of the file and is
    never longer than it. *)
Theorem load_dataset_years_and_order
  (representable : Z -> bool) (parse_number : string -> option Q)
  (rows : list RawRow) :
  (forall r, In r (load_dataset representable parse_number rows) ->
     representable (Year r) = true /\ 0 <= Year r <= 9999)
  /\ sublist (map Sex (load_dataset representable parse_number rows))
             (map raw_Sex rows)
  /\ (length (load_dataset representable parse_number rows) <= length rows)%nat.
Proof.
  assert (Hsub : sublist (map Sex (load_dataset representable parse_number rows))
                         (map raw_Sex rows)).
  { unfold load_dataset.
    replace (map raw_Sex rows)
      with (map (fun c => fst (fst c)) (map (coerce representable parse_number) rows))
      by (rewrite map_map; reflexivity).
    apply dropna_sublist. }
  split; [|split; [exact Hsub|]].
  - intros r Hin.
    destruct (load_dataset_In representable parse_number rows r Hin)
      as (raw & _ & _ & Hy & _).
    unfold to_datetime_Y in Hy.
    destruct (strptime_Y (raw_Time raw)) as [y|] eqn:Ey; [|discriminate].
    destruct (representable y) eqn:Er; [|discriminate].
    injection Hy as <-. split; [exact Er|]. eapply strptime_Y_bounds, Ey.
  - apply sublist_length in Hsub. rewrite !length_map in Hsub. exact Hsub.
Qed.

(** ** Yearly aggregation, continued *)

Lemma sorted_lists_equal (l1 l2 : list Z) :
  StronglySorted Z.lt l1 -> StronglySorted Z.lt l2 ->
  (forall x, In x l1 <-> In x l2) -> l1 = l2.
Proof.
  intros H1. revert l2. induction H1 as [|x l1 Hs1 IH Hall1]; intros l2 H2 Hmem.
  - destruct l2 as [|y l2]; [reflexivity|].
    destruct (proj2 (Hmem y) (or_introl eq_refl)).
  - destruct H2 as [|y l2 Hs2 Hall2].
    { destruct (proj1 (Hmem x) (or_introl eq_refl)). }
    rewrite Forall_forall in Hall1, Hall2.
    assert (x = y) as <-.
    { destruct (proj1 (Hmem x) (or_introl eq_refl)) as [|Hx]; [congruence|].
      destruct (proj2 (Hmem y) (or_introl eq_refl)) as [|Hy]; [congruence|].
      apply Hall1 in Hy. apply Hall2 in Hx. lia. }
    f_equal. apply IH; [exact Hs2|]. intros z. split; intros Hz.
    + destruct (proj1 (Hmem z) (or_intror Hz)) as [<-|]; [|assumption].
      apply Hall1 in Hz. lia.
    + destruct (proj2 (Hmem z) (or_intror Hz)) as [<-|]; [|assumption].
      apply Hall2 in Hz. lia.
Qed.

Lemma frames_equal (l1 l2 : YearlyFrame) (F G : Z -> Q) :
  map YearInt l1 = map YearInt l2 ->
  (forall row, In row l1 -> ValueAgg row = F (YearInt row)) ->
  (forall row, In row l2 -> ValueAgg row = G (YearInt row)) ->
  (forall y, In y (map YearInt l1) -> F y = G y) ->
  l1 = l2.
Proof.
  revert l2. induction l1 as [|a l1 IH]; intros [|b l2] Hk H1 H2 HFG;
    try discriminate Hk; [reflexivity|].
  simpl in Hk. injection Hk as Hab Hk. f_equal.
  - pose proof (H1 a (or_introl eq_refl)) as Ha.
    pose proof (H2 b (or_introl eq_refl)) as Hb.
    rewrite <- Hab, <- (HFG (YearInt a) (or_introl eq_refl)), <- Ha in Hb.
    destruct a, b. simpl in *. congruence.
  - apply IH; [exact Hk| | |].
    + intros row Hin. apply H1. simpl. auto.
    + intros row Hin. apply H2. simpl. auto.
    + intros y Hy. apply HFG. simpl. auto.
Qed.

Lemma group_values_Permutation (df df' : DataFrame) (y : Z) :
  Permutation df df' -> Permutation (group_values df y) (group_values df' y).
Proof.
  unfold group_values.
  induction 1 as [|r l l' _ IH|r r' l|l l' l'' _ IH1 _ IH2]; simpl.
  - constructor.
  - destruct (Year r =? y); simpl; [constructor|]; exact IH.
  - destruct (Year r =? y), (Year r' =? y); simpl;
      first [apply perm_swap | reflexivity].
  - rewrite IH1. exact IH2.
Qed.

Lemma StronglySorted_filter (p : Z -> bool) (l : list Z) :
  StronglySorted Z.lt l -> StronglySorted Z.lt (List.filter p l).
Proof.
  induction 1 as [|x l Hs IH Hall]; simpl; [constructor|].
  destruct (p x); [|exact IH]. constructor; [exact IH|].
  rewrite Forall_forall in *. intros y Hy.
  apply List.filter_In in Hy as [Hy _]. auto.
Qed.

Lemma map_filter_YearInt (s e : Z) (l : YearlyFrame) :
  map YearInt (List.filter (year_in_range s e) l)
  = List.filter (fun y => (s <=? y) && (y <=? e)) (map YearInt l).
Proof.
  induction l as [|row l IH]; simpl; [reflexivity|].
  unfold year_in_range at 1. destruct ((s <=? YearInt row) && (YearInt row <=? e));
    simpl; rewrite IH; reflexivity.
Qed.

Lemma group_values_in_range (df : DataFrame) (s e y : Z) :
  s <= y <= e ->
  group_values (filter_year_range df s e) y = group_values df y.
Proof.
  intros Hy. rewrite filter_year_range_filter. unfold group_values.
  rewrite filter_filter. f_equal. apply List.filter_ext. intros r.
  destruct (Z.eqb_spec (Year r) y) as [->|]; [|apply andb_false_r].
  destruct (Z.geb_spec y s), (Z.leb_spec y e); try lia; reflexivity.
Qed.

Lemma unique_from_In (seen l : list Z) (x : Z) :
  In x (unique_from seen l) <-> In x l /\ ~ In x seen.
Proof.
  revert seen. induction l as [|y l IH]; intros seen; simpl; [tauto|].
  destruct (existsb (Z.eqb y) seen) eqn:E.
  - apply existsb_exists in E as (z & Hz & Hyz). apply Z.eqb_eq in Hyz. subst z.
    rewrite IH. intuition congruence.
  - assert (Hy : ~ In y seen).
    { intros Hin. apply not_true_iff_false in E. apply E, existsb_exists.
      exists y. split; [exact Hin|apply Z.eqb_refl]. }
    simpl. rewrite IH. simpl.
    destruct (Z.eq_dec y x) as [->|Hne]; intuition congruence.
Qed.

Lemma unique_from_NoDup (seen l : list Z) : List.NoDup (unique_from seen l).
Proof.
  revert seen. induction l as [|y l IH]; intros seen; simpl; [constructor|].
  destruct (existsb (Z.eqb y) seen); [apply IH|].
  constructor; [|apply IH].
  rewrite unique_from_In. simpl. tauto.
Qed.

Lemma unique_In (l : list Z) (x : Z) : In x (unique l) <-> In x l.
Proof.
  unfold unique. rewrite unique_from_In. simpl. tauto.
Qed.

Lemma qsum_map_ext {A : Type} (f g : A -> Q) (l : list A) :
  (forall x, In x l -> (f x == g x)%Q) -> (qsum (map f l) == qsum (map g l))%Q.
Proof.
  induction l as [|x l IH]; intros Hfg; [reflexivity|].
  cbn [map]. rewrite !qsum_cons.
  rewrite (Hfg x (or_introl eq_refl)).
  rewrite IH by (intros y Hy; apply Hfg; right; exact Hy). reflexivity.
Qed.

Lemma qsum_map_plus {A : Type} (f g : A -> Q) (l : list A) :
  (qsum (map (fun x => f x + g x) l) == qsum (map f l) + qsum (map g l))%Q.
Proof.
  induction l as [|x l IH]; [reflexivity|].
  cbn [map]. rewrite !qsum_cons, IH. ring.
Qed.

Lemma qsum_indicator_absent (k : Z) (v : Q) (ks : list Z) :
  ~ In k ks -> (qsum (map (fun y => if k =? y then v else 0) ks) == 0)%Q.
Proof.
  induction ks as [|y ks IH]; intros Hnot; [reflexivity|].
  cbn [map]. rewrite qsum_cons, IH by (simpl in Hnot; tauto).
  destruct (Z.eqb_spec k y) as [->|_]; [destruct Hnot; left; reflexivity|ring].
Qed.

Lemma qsum_indicator (k : Z) (v : Q) (ks : list Z) :
  List.NoDup ks -> In k ks ->
  (qsum (map (fun y => if k =? y then v else 0) ks) == v)%Q.
Proof.
  induction 1 as [|y ks Hy Hnd IH]; intros Hin; [destruct Hin|].
  cbn [map]. rewrite qsum_cons.
  destruct (Z.eqb_spec k y) as [->|Hne].
  - rewrite qsum_indicator_absent by exact Hy. ring.
  - rewrite IH by (destruct Hin; [congruence|assumption]). ring.
Qed.

Lemma group_values_cons (r : Row) (df : DataFrame) (y : Z) :
  group_values (r :: df) y
  = if Year r =? y then Value r :: group_values df y else group_values df y.
Proof.
  unfold group_values. simpl. destruct (Year r =? y); reflexivity.
Qed.

(** The groups of a frame share out its [Value] column. *)
Lemma qsum_groups (df : DataFrame) (ks : list Z) :
  List.NoDup ks -> (forall r, In r df -> In (Year r) ks) ->
  (qsum (map (fun y => qsum (group_values df y)) ks) == qsum (map Value df))%Q.
Proof.
  intros Hnd. induction df as [|r df IH]; intros Hcover.
  - cbn [map]. change (qsum []) with 0%Q.
    rewrite (qsum_map_ext _ (fun y => if 0 =? y then 0 else 0)%Q).
    + destruct (in_dec Z.eq_dec 0 ks);
        [apply qsum_indicator|apply qsum_indicator_absent]; assumption.
    + intros y _. destruct (0 =? y); reflexivity.
  - cbn [map]. rewrite qsum_cons, <- IH by (intros; apply Hcover; simpl; auto).
    rewrite <- (qsum_indicator (Year r) (Value r) ks Hnd)
      by (apply Hcover; simpl; auto).
    rewrite <- qsum_map_plus. apply qsum_map_ext. intros y _.
    rewrite group_values_cons.
    destruct (Year r =? y); [apply qsum_cons|ring].
Qed.

Lemma qsum_abs_nonneg (l : list Q) : (0 <= qsum (map Qabs l))%Q.
Proof.
  induction l as [|x l IH]; [discriminate|].
  cbn [map]. rewrite qsum_cons. pose proof (Qabs_nonneg x). lra.
Qed.

Lemma small_integers_group (df : DataFrame) (y : Z) :
  small_integers (map Value df) -> small_integers (group_values df y).
Proof.
  intros [Hint Hsum]. split.
  - intros v Hv. apply Hint. unfold group_values in Hv.
    apply in_map_iff in Hv as (r & <- & Hr). apply List.filter_In in Hr as [Hr _].
    apply in_map, Hr.
  - eapply Qle_lt_trans; [|exact Hsum]. clear.
    induction df as [|r df IH]; [discriminate|].
    rewrite group_values_cons. cbn [map]. rewrite qsum_cons.
    pose proof (Qabs_nonneg (Value r)).
    destruct (Year r =? y); [cbn [map]; rewrite qsum_cons|]; lra.
Qed.

Section AggregateMore.

Variable representable : Z -> bool.
Variable group_sum : list Q -> Q.

(** X7.  When the sum of a group does not depend on the order of its cells
    (as for a column of integers), the aggregation does not depend on the
    order of the rows: two frames with the same rows in different order
    give the same result, be it a yearly frame or the error of a year
    that cannot be made a timestamp again. *)
Theorem aggregate_by_year_order_free (df df' : DataFrame) :
  (forall l l', Permutation l l' -> group_sum l = group_sum l') ->
  Permutation df df' ->
  aggregate_by_year representable group_sum df = aggregate_by_year representable group_sum df'.
Proof.
  intros Hsum Hperm.
  destruct (aggregate_by_year_frame representable group_sum df) as (f & -> & Hs & Htot & Hkeys).
  destruct (aggregate_by_year_frame representable group_sum df') as (f' & -> & Hs' & Htot' & Hkeys').
  assert (Hyears : forall y, In y (map Year df) <-> In y (map Year df')).
  { intros y. split; apply Permutation_in; [|symmetry]; apply Permutation_map, Hperm. }
  rewrite (forallb_same_members (year_timestamp representable) _ _ Hyears).
  assert (f = f') as ->; [|reflexivity].
  apply frames_equal with (F := fun y => group_sum (group_values df y))
                          (G := fun y => group_sum (group_values df' y)); auto.
  - apply sorted_lists_equal; auto. intros y. rewrite Hkeys, Hkeys'. apply Hyears.
  - intros y _. apply Hsum, group_values_Permutation, Hperm.
Qed.

(** X8.  When the aggregation of a frame returns, cutting a year range
    first and aggregating then returns the yearly rows of that range, with
    the same totals. *)
Theorem aggregate_after_year_range
  (df : DataFrame) (start_year end_year : Z) (out : YearlyFrame) :
  aggregate_by_year representable group_sum df = Ok out ->
  aggregate_by_year representable group_sum (filter_year_range df start_year end_year)
  = Ok (List.filter (year_in_range start_year end_year) out).
Proof.
  intros Hout.
  destruct (aggregate_by_year_facts representable group_sum df out Hout)
    as (Hs & Htot & Hkeys & Hfour).
  assert (Hsub : forall r, In r (filter_year_range df start_year end_year) ->
                           In r df /\ start_year <= Year r <= end_year).
  { intros r Hr. rewrite filter_year_range_filter in Hr.
    apply List.filter_In in Hr as [Hr Hb]. apply andb_prop in Hb as [H1 H2].
    apply Z.geb_le in H1. apply Z.leb_le in H2. split; [exact Hr|lia]. }
  destruct (aggregate_by_year_returns representable group_sum
              (filter_year_range df start_year end_year)) as [out' Hout'].
  { intros r Hr. apply Hfour, Hsub, Hr. }
  destruct (aggregate_by_year_facts representable group_sum _ out' Hout')
    as (Hs' & Htot' & Hkeys' & _).
  rewrite Hout'. f_equal.
  apply frames_equal
    with (F := fun y => group_sum
                          (group_values
                             (filter_year_range df start_year end_year) y))
         (G := fun y => group_sum (group_values df y)).
  - rewrite map_filter_YearInt. apply sorted_lists_equal; auto.
    + apply StronglySorted_filter, Hs.
    + intros y. rewrite Hkeys', List.filter_In, Hkeys, andb_true_iff, !Z.leb_le,
        !in_map_iff. split.
      * intros (r & <- & Hr). apply Hsub in Hr as [Hr Hb]. split; [eauto|lia].
      * intros [(r & <- & Hr) Hb]. exists r. split; [reflexivity|].
        rewrite filter_year_range_filter. apply List.filter_In. split; [exact Hr|].
        apply andb_true_intro. split; [apply Z.geb_le|apply Z.leb_le]; lia.
  - exact Htot'.
  - intros row Hrow. apply List.filter_In in Hrow as [Hrow _]. auto.
  - intros y Hy. apply Hkeys', in_map_iff in Hy as (r & <- & Hr).
    apply Hsub in Hr as [_ Hb]. rewrite group_values_in_range by exact Hb.
    reflexivity.
Qed.

(** X9.  When the column sums exactly the lists of integers whose absolute
    values add up to less than 2^53 (64-bit integers and binary64 floats
    both do), and the [Value] column of a frame is such a list, the
    aggregation conserves the grand total: the totals of the yearly frame
    add up to the sum of the [Value] column. *)
Theorem aggregate_by_year_grand_total (df : DataFrame) (out : YearlyFrame) :
  (forall l, small_integers l -> (group_sum l == qsum l)%Q) ->
  small_integers (map Value df) ->
  aggregate_by_year representable group_sum df = Ok out ->
  (qsum (map ValueAgg out) == qsum (map Value df))%Q.
Proof.
  intros Hexact Hsmall Hout.
  destruct (aggregate_by_year_facts representable group_sum df out Hout) as (Hs & Htot & Hkeys & _).
  rewrite <- (qsum_groups df (map YearInt out)).
  - rewrite map_map. apply qsum_map_ext. intros row Hrow.
    rewrite (Htot row Hrow). apply Hexact, small_integers_group, Hsmall.
  - apply StronglySorted_lt_NoDup, Hs.
  - intros r Hr. apply Hkeys, in_map, Hr.
Qed.

(** X10.  The aggregation returns a yearly frame exactly when every year
    of the frame can be made a timestamp again (four digits, within the
    range of the timestamp type).  The yearly frame has one row per
    distinct year of the frame: as many rows as there are distinct years,
    never more rows than the frame, and none exactly when the frame has
    none. *)
Theorem aggregate_by_year_row_count (df : DataFrame) :
  ((exists out, aggregate_by_year representable group_sum df = Ok out)
   <-> (forall r, In r df -> year_timestamp representable (Year r) = true))
  /\ (forall out, aggregate_by_year representable group_sum df = Ok out ->
        length out = length (unique (map Year df))
        /\ (length out <= length df)%nat
        /\ (out = [] <-> df = [])).
Proof.
  split.
  - split; [|apply aggregate_by_year_returns].
    intros [out Hout]. apply (aggregate_by_year_facts representable group_sum df out Hout).
  - intros out Hout.
    destruct (aggregate_by_year_facts representable group_sum df out Hout) as (Hs & _ & Hkeys & _).
    split; [|split].
    + rewrite <- (length_map YearInt).
      apply Permutation_length, Stdlib.Sorting.Permutation.NoDup_Permutation.
      * apply StronglySorted_lt_NoDup, Hs.
      * apply unique_from_NoDup.
      * intros y. rewrite Hkeys, unique_In. reflexivity.
    + rewrite <- (length_map YearInt), <- (length_map Year df).
      apply List.NoDup_incl_length; [apply StronglySorted_lt_NoDup, Hs|].
      intros y. apply Hkeys.
    + split.
      * intros ->. destruct df as [|r df]; [reflexivity|].
        destruct (proj2 (Hkeys (Year r)) (or_introl eq_refl)).
      * intros ->. destruct out as [|row out]; [reflexivity|].
        destruct (proj1 (Hkeys (YearInt row)) (or_introl eq_refl)).
Qed.

End AggregateMore.

Lemma wrap64_add (a b : Z) : wrap64 (wrap64 a + b) = wrap64 (a + b).
Proof.
  unfold wrap64. f_equal.
  replace ((a + 2 ^ 63) mod 2 ^ 64 - 2 ^ 63 + b + 2 ^ 63)
    with ((a + 2 ^ 63) mod 2 ^ 64 + b) by lia.
  rewrite Zplus_mod_idemp_l. f_equal. lia.
Qed.

Lemma int64_sum_fold (l : list Q) (acc : Z) :
  fold_left (fun acc v => inject_Z (wrap64 (Qfloor acc + Qfloor v))) l
            (inject_Z (wrap64 acc))
  = inject_Z (wrap64 (acc + fold_right Z.add 0 (map Qfloor l))).
Proof.
  revert acc. induction l as [|v l IH]; intros acc; cbn [fold_left map fold_right].
  - rewrite Z.add_0_r. reflexivity.
  - rewrite Qfloor_Z, wrap64_add, IH. f_equal. f_equal. lia.
Qed.

Lemma int64_sum_Permutation (l l' : list Q) :
  Permutation l l' -> int64_sum l = int64_sum l'.
Proof.
  intros Hperm. unfold int64_sum.
  change 0%Q with (inject_Z (wrap64 0)). rewrite !int64_sum_fold. do 3 f_equal.
  induction Hperm as [|x l l' _ IH|x y l|l l' l'' _ IH1 _ IH2]; simpl; lia.
Qed.

Lemma aggregate_by_year_order_free_witness :
  aggregate_by_year ns_year int64_sum [mkRow "Males" 2001 1; mkRow "Females" 2000 2]
  = aggregate_by_year ns_year int64_sum [mkRow "Females" 2000 2; mkRow "Males" 2001 1].
Proof.
  apply aggregate_by_year_order_free.
  - apply int64_sum_Permutation.
  - apply perm_swap.
Defined.

Lemma wrap64_small (z : Z) : - 2 ^ 63 <= z < 2 ^ 63 -> wrap64 z = z.
Proof.
  intros Hz. unfold wrap64. rewrite Z.mod_small; lia.
Qed.

Lemma qsum_integers (l : list Q) :
  (forall v, In v l -> exists z : Z, v = inject_Z z) ->
  (qsum l == inject_Z (fold_right Z.add 0%Z (map Qfloor l)))%Q
  /\ (- qsum (map Qabs l) <= qsum l <= qsum (map Qabs l))%Q.
Proof.
  induction l as [|x l IH]; intros Hint.
  - split; [reflexivity|]. split; discriminate.
  - destruct IH as (IH1 & IH2 & IH3); [intros v Hv; apply Hint; simpl; auto|].
    destruct (Hint x (or_introl eq_refl)) as [z ->].
    cbn [map fold_right]. rewrite !qsum_cons, Qfloor_Z, inject_Z_plus, IH1.
    split; [reflexivity|].
    pose proof (Qle_Qabs (inject_Z z)) as H1.
    pose proof (Qle_Qabs (- inject_Z z)) as H2. rewrite Qabs_opp in H2.
    rewrite <- IH1. split; lra.
Qed.

(** A sum of 64-bit integers is exact as long as nothing wraps around. *)
Lemma int64_sum_small (l : list Q) :
  small_integers l -> (int64_sum l == qsum l)%Q.
Proof.
  intros [Hint Hsum]. destruct (qsum_integers l Hint) as (Hz & Hlo & Hhi).
  unfold int64_sum. change 0%Q with (inject_Z (wrap64 0)).
  rewrite int64_sum_fold, Z.add_0_l, Hz.
  set (t := fold_right Z.add 0 (map Qfloor l)) in *.
  assert (Hb : - 2 ^ 53 < t < 2 ^ 53).
  { split; rewrite Zlt_Qlt; [rewrite inject_Z_opp|]; lra. }
  rewrite wrap64_small by lia. reflexivity.
Qed.

Lemma aggregate_by_year_grand_total_witness :
  (qsum (map ValueAgg [mkYearly 2000 2; mkYearly 2001 4])
   == qsum (map Value [mkRow "Males" 2001 1; mkRow "Females" 2000 2;
                       mkRow "Females" 2001 3]))%Q.
Proof.
  apply (aggregate_by_year_grand_total ns_year int64_sum
           [mkRow "Males" 2001 1; mkRow "Females" 2000 2; mkRow "Females" 2001 3]).
  - apply int64_sum_small.
  - split; [|reflexivity].
    intros v [<-|[<-|[<-|[]]]]; [exists 1|exists 2|exists 3]; reflexivity.
  - reflexivity.
Defined.

Lemma aggregate_after_year_range_witness :
  aggregate_by_year ns_year qsum
    (filter_year_range [mkRow "Males" 2001 1; mkRow "Females" 2003 2] 2000 2002)
  = Ok [mkYearly 2001 (0 + 1)].
Proof.
  apply (aggregate_after_year_range ns_year qsum
           [mkRow "Males" 2001 1; mkRow "Females" 2003 2] 2000 2002
           [mkYearly 2001 (0 + 1); mkYearly 2003 (0 + 2)]).
  reflexivity.
Defined.

Lemma aggregate_by_year_row_count_witness :
  exists out, aggregate_by_year ns_year qsum [mkRow "Males" 2001 1; mkRow "Males" 2001 3]
              = Ok out.
Proof.
  apply aggregate_by_year_row_count.
  intros r [<-|[<-|[]]]; reflexivity.
Defined.

(** ** Statistics, continued *)

Lemma member_same (k : string) (stats stats' : list string) :
  (forall x, In x stats <-> In x stats') ->
  PyStr.member k stats = PyStr.member k stats'.
Proof.
  intros H. destruct (PyStr.member k stats) eqn:E1, (PyStr.member k stats') eqn:E2;
    try reflexivity.
  - apply member_In, H, member_In in E1. congruence.
  - apply member_In, H, member_In in E2. congruence.
Qed.

Lemma labels_of_not_Error (name : string) : ~ In "Error" (labels_of name).
Proof.
  unfold labels_of.
  repeat match goal with
    | |- context [if ?b then _ else _] => destruct b
    end; simpl; intuition discriminate.
Qed.

Lemma qmax_cases (a b : Q) :
  (qmax a b = a \/ qmax a b = b) /\ (a <= qmax a b)%Q /\ (b <= qmax a b)%Q.
Proof.
  unfold qmax. destruct (Qle_bool a b) eqn:E.
  - apply Qle_bool_iff in E. repeat split; auto; lra.
  - assert (~ (a <= b)%Q) by (rewrite <- Qle_bool_iff; congruence).
    repeat split; auto; lra.
Qed.

Lemma qmin_cases (a b : Q) :
  (qmin a b = a \/ qmin a b = b) /\ (qmin a b <= a)%Q /\ (qmin a b <= b)%Q.
Proof.
  unfold qmin. destruct (Qle_bool a b) eqn:E.
  - apply Qle_bool_iff in E. repeat split; auto; lra.
  - assert (~ (a <= b)%Q) by (rewrite <- Qle_bool_iff; congruence).
    repeat split; auto; lra.
Qed.

Lemma fold_qmax_spec (l : list Q) (x : Q) :
  In (fold_left qmax l x) (x :: l)
  /\ (forall v, In v (x :: l) -> v <= fold_left qmax l x)%Q.
Proof.
  revert x. induction l as [|y l IH]; intros x; simpl fold_left.
  - split; [left; reflexivity|]. intros v [->|[]]. lra.
  - destruct (IH (qmax x y)) as [Hin Hge].
    destruct (qmax_cases x y) as (Hc & Hx & Hy). split.
    + destruct Hin as [Hin|Hin]; [|right; right; exact Hin].
      rewrite <- Hin. destruct Hc as [-> | ->]; simpl; auto.
    + pose proof (Hge _ (or_introl eq_refl)) as Hm.
      intros v [->|[->|Hv]]; [lra|lra|]. apply Hge. right. exact Hv.
Qed.

Lemma fold_qmin_spec (l : list Q) (x : Q) :
  In (fold_left qmin l x) (x :: l)
  /\ (forall v, In v (x :: l) -> fold_left qmin l x <= v)%Q.
Proof.
  revert x. induction l as [|y l IH]; intros x; simpl fold_left.
  - split; [left; reflexivity|]. intros v [->|[]]. lra.
  - destruct (IH (qmin x y)) as [Hin Hle].
    destruct (qmin_cases x y) as (Hc & Hx & Hy). split.
    + destruct Hin as [Hin|Hin]; [|right; right; exact Hin].
      rewrite <- Hin. destruct Hc as [-> | ->]; simpl; auto.
    + pose proof (Hle _ (or_introl eq_refl)) as Hm.
      intros v [->|[->|Hv]]; [lra|lra|]. apply Hle. right. exact Hv.
Qed.






Section EngineMore.

Variable lstsq_line : list Z -> list Q -> Q * Q.

(** X11.  The requested list counts as a set: two lists with the same
    names, in any order and with any repetitions, give the same result. *)
Theorem calculate_statistics_request_is_a_set
  (df : YearlyFrame) (stats stats' : list string) :
  (forall x, In x stats <-> In x stats') ->
  calculate_statistics lstsq_line df stats = calculate_statistics lstsq_line df stats'.
Proof.
  intros H. destruct df as [|r df]; [reflexivity|].
  rewrite !calculate_statistics_rows by discriminate.
  unfold trend_part, percent_part, basic_stats.
  rewrite !(member_same _ stats stats' H). reflexivity.
Qed.

(** X12.  The "Error" entry marks the frame without rows and nothing else:
    the result has an "Error" entry exactly when the yearly frame is
    empty, whatever was requested. *)
Theorem calculate_statistics_error_iff_empty
  (df : YearlyFrame) (stats : list string) :
  exists m : gmap string pyval,
    calculate_statistics lstsq_line df stats = Ok m
    /\ (is_Some (m !! "Error") <-> df = []).
Proof.
  destruct df as [|r df].
  - eexists. split; [reflexivity|]. split; [reflexivity|].
    intros _. rewrite lookup_singleton_eq. eauto.
  - eexists. split; [apply calculate_statistics_rows; discriminate|].
    split; [|discriminate]. intros Hsome.
    destruct (result_entry_requested _ _ _ _ Hsome) as (name & _ & Hl).
    destruct (labels_of_not_Error name Hl).
Qed.

Lemma basic_entry (df : YearlyFrame) (stats : list string) (k : string) :
  k <> "Trend Intercept" -> k <> "Trend Slope (value per year)" ->
  k <> "Trend" -> k <> "Percent Change (%)" -> k <> "Percent Change Note" ->
  trend_part lstsq_line df stats
    (percent_part (map ValueAgg df) stats
       (basic_stats (map ValueAgg df) stats)) !! k
  = basic_stats (map ValueAgg df) stats !! k.
Proof.
  intros. rewrite trend_part_other, percent_part_other by assumption.
  reflexivity.
Qed.

(** X13.  On a frame with rows, the "Max" entry is one of the totals and no
    total is above it; the "Min" entry is one of the totals and no total
    is below it. *)
Theorem calculate_statistics_max_min
  (df : YearlyFrame) (stats : list string) :
  df <> [] ->
  exists m : gmap string pyval,
    calculate_statistics lstsq_line df stats = Ok m
    /\ (In "max" stats ->
        exists hi, m !! "Max" = Some (VNum hi)
                   /\ In hi (map ValueAgg df)
                   /\ forall v, In v (map ValueAgg df) -> (v <= hi)%Q)
    /\ (In "min" stats ->
        exists lo, m !! "Min" = Some (VNum lo)
                   /\ In lo (map ValueAgg df)
                   /\ forall v, In v (map ValueAgg df) -> (lo <= v)%Q).
Proof.
  intros Hne. eexists. split; [apply calculate_statistics_rows, Hne|].
  rewrite !basic_entry by discriminate.
  destruct (basic_stats_lookup (map ValueAgg df) stats) as (_ & Hmax & Hmin & _).
  rewrite Hmax, Hmin. destruct df as [|r df]; [congruence|]. cbn [map].
  split; intros Hreq; apply member_In in Hreq; rewrite Hreq.
  - destruct (fold_qmax_spec (map ValueAgg df) (ValueAgg r)) as [Hin Hge].
    eexists. split; [reflexivity|]. split; assumption.
  - destruct (fold_qmin_spec (map ValueAgg df) (ValueAgg r)) as [Hin Hle].
    eexists. split; [reflexivity|]. split; assumption.
Qed.


(** X16.  On a frame with rows, the "Std Dev" entry is not a number when
    there is a single total; with two totals or more it is the square root
    of the sum of the squared deviations from the mean divided by the
    number of totals less one, a quantity that is never negative. *)
Theorem calculate_statistics_stddev
  (df : YearlyFrame) (stats : list string) :
  df <> [] -> In "stddev" stats ->
  exists m : gmap string pyval,
    calculate_statistics lstsq_line df stats = Ok m
    /\ (length df = 1%nat -> m !! "Std Dev" = Some VNaN)
    /\ ((2 <= length df)%nat ->
        exists v, m !! "Std Dev" = Some (VSqrt v)
                  /\ (0 <= v)%Q
                  /\ (v == sumf (fun r => (ValueAgg r - sumf ValueAgg df / cnt df)
                                          * (ValueAgg r - sumf ValueAgg df / cnt df)) df
                           / (cnt df - 1))%Q).
Proof.
  intros Hne Hreq. apply member_In in Hreq.
  eexists. split; [apply calculate_statistics_rows, Hne|].
  rewrite basic_entry by discriminate.
  destruct (basic_stats_lookup (map ValueAgg df) stats) as (_ & _ & _ & _ & Hstd).
  rewrite Hstd, Hreq. unfold series_std. rewrite length_map. split.
  - intros ->. reflexivity.
  - intros Hlen. destruct (length df <=? 1)%nat eqn:E;
      [apply Nat.leb_le in E; lia|].
    eexists. split; [reflexivity|].
    assert (Hden : (inject_Z (Z.of_nat (length df - 1)) == cnt df - 1)%Q).
    { unfold cnt. replace (Z.of_nat (length df - 1)) with (Z.of_nat (length df) + -1)%Z
        by lia. rewrite inject_Z_plus. reflexivity. }
    assert (Hpos : (0 < inject_Z (Z.of_nat (length df - 1)))%Q).
    { change 0%Q with (inject_Z 0). rewrite <- Zlt_Qlt. lia. }
    rewrite map_map. split.
    + apply Qle_shift_div_l; [exact Hpos|]. rewrite Qmult_0_l.
      apply (sumf_nonneg
               (fun r => (ValueAgg r - qsum (map ValueAgg df) / count (map ValueAgg df))
                         * (ValueAgg r - qsum (map ValueAgg df) / count (map ValueAgg df)))%Q).
      intros r. apply Qsquare_nonneg.
    + rewrite Hden. unfold sumf, count, cnt. rewrite length_map. reflexivity.
Qed.


(** ** The chart, continued *)

(** X19.  Drawing the chart raises nothing, whatever the frame and the
    requested list.  The data line holds every row; the trend line is
    there exactly when "trend" is requested and the frame has two rows or
    more, and it is the line whose slope and intercept the statistics
    report, taken at every year; the moving average is there exactly when
    it is requested. *)
Theorem plot_all_charts_total_and_consistent
  (df : YearlyFrame) (stats : list string) :
  exists ch : Chart,
    plot_all_charts lstsq_line df stats = Ok ch
    /\ data_line ch = map (fun r => (YearInt r, ValueAgg r)) df
    /\ (is_Some (trend_line ch) <-> In "trend" stats /\ (2 <= length df)%nat)
    /\ (forall line, trend_line ch = Some line ->
          exists (m : gmap string pyval) (slope intercept : Q),
            calculate_statistics lstsq_line df stats = Ok m
            /\ m !! "Trend Slope (value per year)" = Some (VNum slope)
            /\ m !! "Trend Intercept" = Some (VNum intercept)
            /\ line = map (fun r => (YearInt r,
                                     slope * inject_Z (YearInt r) + intercept)%Q) df)
    /\ (is_Some (moving_average ch) <-> In "moving average" stats).
Proof.
  unfold plot_all_charts.
  assert (Hma : forall v : list pyval,
             is_Some (if PyStr.member "moving average" stats then Some v else None)
             <-> In "moving average" stats).
  { intros v. rewrite <- member_In.
    destruct (PyStr.member "moving average" stats); split; eauto;
      try discriminate. intros [? [=]]. }
  destruct (PyStr.member "trend" stats) eqn:Et;
    destruct (2 <=? length df)%nat eqn:El; cbn [andb].
  - apply Nat.leb_le in El.
    assert (Hne : df <> []) by (destruct df; simpl in El; [lia|discriminate]).
    rewrite polyfit1_frame by exact Hne.
    destruct (lstsq_line (map YearInt df) (map ValueAgg df))
      as [slope intercept] eqn:Efit.
    cbn [mbind result_bind].
    eexists. split; [reflexivity|]. cbn [data_line trend_line moving_average].
    split; [apply combine_map|]. split.
    { split; [intros _; split; [apply member_In, Et|exact El]|eauto]. }
    split; [|apply Hma].
    intros line [= <-]. eexists _, _, _.
    split; [apply calculate_statistics_rows, Hne|].
    unfold trend_part. rewrite Et, Efit.
    destruct (2 <=? length df)%nat eqn:E; [|apply Nat.leb_nle in E; lia].
    split; [map_lookup|]. split; [map_lookup|]. apply map_map.
  - cbn [mbind result_bind]. eexists. split; [reflexivity|].
    cbn [data_line trend_line moving_average].
    split; [apply combine_map|]. split.
    { split; [intros [? [=]]|]. intros [_ H]. apply Nat.leb_nle in El. lia. }
    split; [discriminate|apply Hma].
  - cbn [mbind result_bind]. eexists. split; [reflexivity|].
    cbn [data_line trend_line moving_average].
    split; [apply combine_map|]. split.
    { split; [intros [? [=]]|]. intros [H _]. apply member_In in H. congruence. }
    split; [discriminate|apply Hma].
  - cbn [mbind result_bind]. eexists. split; [reflexivity|].
    cbn [data_line trend_line moving_average].
    split; [apply combine_map|]. split.
    { split; [intros [? [=]]|]. intros [H _]. apply member_In in H. congruence. }
    split; [discriminate|apply Hma].
Qed.

End EngineMore.

Lemma calculate_statistics_request_is_a_set_witness :
  calculate_statistics exact_line collinear_series ["trend"; "max"; "trend"]
  = calculate_statistics exact_line collinear_series ["max"; "trend"].
Proof.
  apply calculate_statistics_request_is_a_set.
  intros x. simpl. tauto.
Defined.

Lemma calculate_statistics_max_min_witness :
  exists (m : gmap string pyval) (hi : Q),
    calculate_statistics exact_line collinear_series ["max"] = Ok m
    /\ m !! "Max" = Some (VNum hi) /\ In hi (map ValueAgg collinear_series).
Proof.
  destruct (calculate_statistics_max_min exact_line collinear_series ["max"])
    as (m & Hm & Hmax & _); [discriminate|].
  destruct (Hmax (or_introl eq_refl)) as (hi & Hhi & Hin & _).
  exists m, hi. auto.
Defined.


Lemma calculate_statistics_stddev_witness :
  exists m : gmap string pyval,
    calculate_statistics exact_line [mkYearly 2000 4] ["stddev"] = Ok m
    /\ m !! "Std Dev" = Some VNaN.
Proof.
  destruct (calculate_statistics_stddev exact_line [mkYearly 2000 4] ["stddev"])
    as (m & Hm & Hone & _); [discriminate|simpl; auto|].
  exists m. split; [exact Hm|]. apply Hone. reflexivity.
Defined.


(** ** The main program *)

Module StripFacts.
Import PyStr.

Lemma head_ok_lstrip (s : string) : head_ok (lstrip s) = true.
Proof.
  induction s as [|c s IH]; simpl; [reflexivity|].
  destruct (is_space c) eqn:E; [exact IH|]. simpl. rewrite E. reflexivity.
Qed.

Lemma lstrip_head_ok (s : string) : head_ok s = true -> lstrip s = s.
Proof.
  destruct s as [|c s]; simpl; [reflexivity|].
  destruct (is_space c); [discriminate|reflexivity].
Qed.

Lemma rstrip_cons_nonspace (c : ascii) (s : string) :
  is_space c = false -> rstrip (String c s) = String c (rstrip s).
Proof.
  intros E. simpl. rewrite E. destruct (rstrip s); reflexivity.
Qed.

Lemma head_ok_rstrip (s : string) : head_ok s = true -> head_ok (rstrip s) = true.
Proof.
  destruct s as [|c s]; [reflexivity|]. intros E. simpl in E.
  apply negb_true_iff in E. rewrite (rstrip_cons_nonspace _ _ E).
  simpl. rewrite E. reflexivity.
Qed.

Lemma rstrip_idem (s : string) : rstrip (rstrip s) = rstrip s.
Proof.
  induction s as [|c s IH]; [reflexivity|]. simpl.
  destruct (rstrip s) as [|d t] eqn:E.
  - destruct (is_space c) eqn:Ec; [reflexivity|]. simpl. rewrite Ec. reflexivity.
  - change (rstrip (String c (String d t))) with
      (match rstrip (String d t) with
       | EmptyString => if is_space c then EmptyString else String c EmptyString
       | String a u => String c (String a u)
       end).
    rewrite IH. reflexivity.
Qed.

Lemma strip_idem (s : string) : strip (strip s) = strip s.
Proof.
  unfold strip.
  rewrite (lstrip_head_ok (rstrip (lstrip s)))
    by apply head_ok_rstrip, head_ok_lstrip.
  apply rstrip_idem.
Qed.

Lemma eqb_comma_lower_char (c : ascii) :
  Ascii.eqb (lower_char c) "," = Ascii.eqb c ",".
Proof.
  destruct c as [[] [] [] [] [] [] [] []]; reflexivity.
Qed.

End StripFacts.

Lemma split_on_lower (s : string) :
  split_on "," (PyStr.lower s) = map PyStr.lower (split_on "," s).
Proof.
  induction s as [|c s IH]; [reflexivity|].
  cbn [PyStr.lower split_on]. rewrite StripFacts.eqb_comma_lower_char, IH.
  destruct (Ascii.eqb c ","); [reflexivity|].
  destruct (split_on "," s); reflexivity.
Qed.

(** X20.  The requested names read from a line are the pieces between the
    commas, trimmed and lower-cased, without the blank ones.  Each name is
    therefore not empty, has no blank at either end and no capital
    letter, in whatever case and spacing the line was typed. *)
Theorem read_stats_names (line name : string) :
  (In name (read_stats line) <->
     exists piece, In piece (split_on "," line)
                   /\ name = PyStr.strip (PyStr.lower piece) /\ name <> "")
  /\ (In name (read_stats line) ->
        name <> "" /\ PyStr.strip name = name /\ PyStr.lower name = name).
Proof.
  assert (Hiff : In name (read_stats line) <->
     exists piece, In piece (split_on "," line)
                   /\ name = PyStr.strip (PyStr.lower piece) /\ name <> "").
  { unfold read_stats. rewrite split_on_lower, in_map_iff. split.
    - intros (p & <- & Hp). apply List.filter_In in Hp as [Hp Hnb].
      apply in_map_iff in Hp as (piece & <- & Hpiece).
      exists piece. split; [exact Hpiece|]. split; [reflexivity|].
      apply negb_true_iff, String.eqb_neq in Hnb. exact Hnb.
    - intros (piece & Hpiece & -> & Hne). exists (PyStr.lower piece).
      split; [reflexivity|]. apply List.filter_In. split.
      + apply in_map, Hpiece.
      + apply negb_true_iff, String.eqb_neq. exact Hne. }
  split; [exact Hiff|].
  intros Hin. apply Hiff in Hin as (piece & _ & -> & Hne).
  split; [exact Hne|]. split; [apply StripFacts.strip_idem|].
  rewrite <- PyStrFacts.strip_lower, PyStrFacts.lower_idem. reflexivity.
Qed.

Lemma read_stats_names_witness :
  "trend" <> "" /\ PyStr.strip "trend" = "trend" /\ PyStr.lower "trend" = "trend".
Proof.
  apply (read_stats_names " Average , TREND ,, max" "trend").
  simpl. auto.
Defined.

Lemma zinsert_In (x : Z) (l : list Z) (y : Z) :
  In y (zinsert x l) <-> y = x \/ In y l.
Proof.
  induction l as [|z l IH]; simpl; [intuition congruence|].
  destruct (x <=? z); simpl; [intuition congruence|].
  rewrite IH. intuition congruence.
Qed.

Lemma sorted_In (l : list Z) (y : Z) : In y (sorted l) <-> In y l.
Proof.
  induction l as [|x l IH]; simpl; [tauto|].
  rewrite zinsert_In, IH. intuition congruence.
Qed.

Lemma zinsert_sorted (x : Z) (l : list Z) :
  StronglySorted Z.le l -> StronglySorted Z.le (zinsert x l).
Proof.
  induction 1 as [|y l Hs IH Hall]; simpl; [repeat constructor|].
  destruct (Z.leb_spec x y).
  - constructor; [constructor; assumption|].
    constructor; [assumption|]. eapply Forall_impl; [|exact Hall].
    simpl. intros. lia.
  - constructor; [exact IH|]. rewrite Forall_forall in *.
    intros z Hz. apply zinsert_In in Hz as [->|Hz]; [lia|auto].
Qed.

Lemma sorted_sorted (l : list Z) : StronglySorted Z.le (sorted l).
Proof.
  induction l as [|x l IH]; simpl; [constructor|]. apply zinsert_sorted, IH.
Qed.

Lemma sorted_le_last (l : list Z) (d : Z) :
  StronglySorted Z.le l -> forall v, In v l -> v <= List.last l d.
Proof.
  induction 1 as [|x l Hs IH Hall]; [intros ? []|].
  intros v [<-|Hv].
  - destruct l as [|y l]; [simpl; lia|].
    rewrite Forall_forall in Hall.
    change (List.last (x :: y :: l) d) with (List.last (y :: l) d).
    specialize (IH y (or_introl eq_refl)). specialize (Hall y (or_introl eq_refl)).
    lia.
  - destruct l as [|y l]; [destruct Hv|].
    change (List.last (x :: y :: l) d) with (List.last (y :: l) d). auto.
Qed.

Lemma last_In_cons (x : Z) (l : list Z) (d : Z) :
  In (List.last (x :: l) d) (x :: l).
Proof.
  revert x. induction l as [|y l IH]; intros x; [left; reflexivity|].
  right. change (List.last (x :: y :: l) d) with (List.last (y :: l) d). apply IH.
Qed.

Lemma available_years_bounds (df : DataFrame) :
  df <> [] ->
  exists mn mx,
    list_first (sorted (unique (map Year df))) = Ok mn
    /\ list_last (sorted (unique (map Year df))) = Ok mx
    /\ year_bounds df mn mx.
Proof.
  intros Hne.
  assert (Hmem : forall y, In y (sorted (unique (map Year df))) <-> In y (map Year df)).
  { intros y. rewrite sorted_In, unique_In. reflexivity. }
  pose proof (sorted_sorted (unique (map Year df))) as Hs.
  destruct (sorted (unique (map Year df))) as [|mn l] eqn:E.
  - destruct df as [|r df]; [congruence|].
    destruct (proj2 (Hmem (Year r)) (or_introl eq_refl)).
  - exists mn, (List.last (mn :: l) mn).
    split; [reflexivity|]. split; [reflexivity|]. unfold year_bounds.
    split; [apply Hmem; left; reflexivity|].
    split; [apply Hmem, last_In_cons|].
    intros r Hr.
    assert (Hin : In (Year r) (mn :: l)) by (apply Hmem, in_map, Hr).
    split.
    + inversion Hs as [|? ? _ Hall]; subst. rewrite Forall_forall in Hall.
      destruct Hin as [<-|Hin]; [lia|auto].
    + apply sorted_le_last; assumption.
Qed.

Lemma year_bounds_unique (df : DataFrame) (mn mx mn' mx' : Z) :
  year_bounds df mn mx -> year_bounds df mn' mx' -> mn = mn' /\ mx = mx'.
Proof.
  intros (Hmn & Hmx & Hb) (Hmn' & Hmx' & Hb').
  apply in_map_iff in Hmn as (r1 & <- & H1), Hmx as (r2 & <- & H2).
  apply in_map_iff in Hmn' as (r3 & <- & H3), Hmx' as (r4 & <- & H4).
  pose proof (Hb _ H3). pose proof (Hb _ H4).
  pose proof (Hb' _ H1). pose proof (Hb' _ H2). lia.
Qed.

Lemma filter_year_range_covering (df : DataFrame) (s e : Z) :
  (forall r, In r df -> s <= Year r <= e) -> filter_year_range df s e = df.
Proof.
  rewrite filter_year_range_filter.
  induction df as [|r df IH]; intros Hall; simpl; [reflexivity|].
  assert (Hr : s <= Year r <= e) by (apply Hall; simpl; auto).
  destruct (Z.geb_spec (Year r) s); [|lia].
  destruct (Z.leb_spec (Year r) e); [|lia].
  simpl. f_equal. apply IH. intros r' Hin. apply Hall. simpl. auto.
Qed.

Lemma forallb_false_ex {A : Type} (p : A -> bool) (l : list A) :
  forallb p l = false -> exists x, In x l /\ p x = false.
Proof.
  induction l as [|x l IH]; simpl; [discriminate|].
  destruct (p x) eqn:E; simpl.
  - intros H. destruct (IH H) as (y & Hy & Hp). eauto.
  - intros _. eauto.
Qed.

Lemma year_timestamp_bounds (representable : Z -> bool) (y : Z) :
  year_timestamp representable y = true -> 1000 <= y <= 9999.
Proof.
  unfold year_timestamp, four_digit_year. intros H.
  apply andb_prop in H as [H _]. apply andb_prop in H as [H1 H2].
  apply Z.leb_le in H1. apply Z.leb_le in H2. lia.
Qed.

Lemma filter_gender_strip (df : DataFrame) (g : string) :
  filter_gender df (PyStr.strip g) = filter_gender df g.
Proof.
  unfold filter_gender. rewrite StripFacts.strip_idem. reflexivity.
Qed.

Lemma year_input_None (py_int : string -> option Z) (line : string) (d : Z) :
  year_input py_int line d = None <-> line <> "" /\ py_int line = None.
Proof.
  unfold year_input.
  destruct (String.eqb_spec line "") as [->|Hne]; split;
    [discriminate|intros [? _]; congruence|auto|tauto].
Qed.

Section MainFacts.

Variable representable : Z -> bool.
Variable parse_number : string -> option Q.
Variable py_int : string -> option Z.
Variable missing : string -> bool.
Variable group_sum : list Q -> Q.
Variable lstsq_line : list Z -> list Q -> Q * Q.

Lemma rows_no_error (df : YearlyFrame) (stats : list string) :
  trend_part lstsq_line df stats
    (percent_part (map ValueAgg df) stats
       (basic_stats (map ValueAgg df) stats)) !! "Error" = None.
Proof.
  rewrite basic_entry by discriminate. apply basic_stats_other; discriminate.
Qed.

Lemma aggregate_by_year_nil (df : DataFrame) :
  aggregate_by_year representable group_sum df = Ok [] -> df = [].
Proof.
  intros Hnil. destruct df as [|r df]; [reflexivity|].
  destruct (aggregate_by_year_facts representable group_sum (r :: df) [] Hnil) as (_ & _ & Hkeys & _).
  destruct (proj2 (Hkeys (Year r)) (or_introl eq_refl)).
Qed.

Lemma aggregate_by_year_error (df : DataFrame) (ex : exn) :
  aggregate_by_year representable group_sum df = Raise ex ->
  ex = ValueError /\ exists r, In r df /\ year_timestamp representable (Year r) = false.
Proof.
  destruct (aggregate_by_year_frame representable group_sum df) as (frame & -> & _).
  destruct (forallb (year_timestamp representable) (map Year df)) eqn:E; [discriminate|].
  intros [= <-]. split; [reflexivity|].
  apply forallb_false_ex in E as (y & Hy & Hp).
  apply in_map_iff in Hy as (r & <- & Hr). eauto.
Qed.

Lemma sorted_sex_cases (cells : list string) :
  (sorted_sex missing cells = Raise TypeError
   /\ exists c c', In c cells /\ In c' cells
                   /\ missing c = true /\ missing c' = false)
  \/ (sorted_sex missing cells = Ok tt
      /\ ((forall c, In c cells -> missing c = true)
          \/ (forall c, In c cells -> missing c = false))).
Proof.
  unfold sorted_sex.
  destruct (existsb missing cells) eqn:E1;
    destruct (existsb (fun c => negb (missing c)) cells) eqn:E2; cbn [andb].
  - left. split; [reflexivity|].
    apply existsb_exists in E1 as (c & Hc & Hm).
    apply existsb_exists in E2 as (c' & Hc' & Hm').
    apply negb_true_iff in Hm'. eauto 7.
  - right. split; [reflexivity|]. left. intros c Hc.
    destruct (missing c) eqn:Em; [reflexivity|].
    apply not_true_iff_false in E2. exfalso. apply E2, existsb_exists.
    exists c. rewrite Em. auto.
  - right. split; [reflexivity|]. right. intros c Hc.
    destruct (missing c) eqn:Em; [|reflexivity].
    apply not_true_iff_false in E1. exfalso. apply E1, existsb_exists. eauto.
  - right. split; [reflexivity|]. right. intros c Hc.
    destruct (missing c) eqn:Em; [|reflexivity].
    apply not_true_iff_false in E1. exfalso. apply E1, existsb_exists. eauto.
Qed.

(** The ways a run on a file that was found can go. *)
Lemma main_cases (rows : list RawRow) (g s e st : string) :
  let df := load_dataset representable parse_number rows in
  let run := main representable parse_number py_int missing group_sum lstsq_line
                  (Some rows) g s e st in
  (df = [] /\ run = Uncaught IndexError)
  \/ (df <> []
      /\ exists mn mx,
          year_bounds df mn mx
          /\ ((sorted_sex missing (map Sex df) = Raise TypeError
               /\ run = Uncaught TypeError)
              \/ (year_input py_int s mn = None /\ run = Exit 1)
              \/ (exists sy, year_input py_int s mn = Some sy
                    /\ ((year_input py_int e mx = None /\ run = Exit 1)
                        \/ exists ey, year_input py_int e mx = Some ey
                             /\ let selected :=
                                  filter_year_range (filter_gender df g) sy ey in
                                ((exists r, In r selected
                                            /\ year_timestamp representable (Year r) = false)
                                 /\ run = Uncaught ValueError)
                                \/ (selected = [] /\ run = Exit 0)
                                \/ (exists yearly results chart,
                                      aggregate_by_year representable group_sum selected = Ok yearly
                                      /\ yearly <> []
                                      /\ calculate_statistics lstsq_line yearly
                                           (read_stats st) = Ok results
                                      /\ plot_all_charts lstsq_line yearly
                                           (read_stats st) = Ok chart
                                      /\ results !! "Error" = None
                                      /\ run = Finished results chart))))).
Proof.
  intros df run. subst run. unfold main. fold df.
  destruct df as [|r0 df0] eqn:Edf; [left; split; reflexivity|].
  rewrite <- Edf. right. split; [rewrite Edf; discriminate|].
  destruct (available_years_bounds df) as (mn & mx & -> & -> & Hb);
    [rewrite Edf; discriminate|].
  exists mn, mx. split; [exact Hb|].
  destruct (sorted_sex_cases (map Sex df)) as [[-> _]|[-> _]];
    [left; split; reflexivity|right].
  destruct (year_input py_int s mn) as [sy|]; [right|left; split; reflexivity].
  exists sy. split; [reflexivity|].
  destruct (year_input py_int e mx) as [ey|]; [right|left; split; reflexivity].
  exists ey. split; [reflexivity|]. cbv zeta.
  rewrite filter_gender_strip.
  destruct (aggregate_by_year representable group_sum
              (filter_year_range (filter_gender df g) sy ey))
    as [yearly|ex] eqn:Ey.
  - destruct yearly as [|y0 yearly0].
    + right. left. split; [apply aggregate_by_year_nil, Ey|reflexivity].
    + right. right. cbn [length Nat.eqb].
      rewrite (calculate_statistics_rows lstsq_line) by discriminate.
      destruct (plot_all_charts_moving_average lstsq_line (y0 :: yearly0)
                  (read_stats st)) as (ch & Hch & _).
      rewrite Hch.
      eexists _, _, ch. split; [reflexivity|]. split; [discriminate|].
      split; [apply calculate_statistics_rows; discriminate|].
      split; [exact Hch|]. split; [apply rows_no_error|reflexivity].
  - left. apply aggregate_by_year_error in Ey as [-> Hr]. split; [exact Hr|reflexivity].
Qed.

(** X21.  A run can end in an exception before anything is asked.  When
    the file is found and no row of it can be loaded, the run ends in the
    index error of taking the first available year.  When, among the
    loaded rows, one category cell is missing and another holds a text,
    the run ends in the type error of putting the categories in order.
    What is typed does not matter in either case. *)
Theorem main_uncaught_before_input
  (rows : list RawRow) (g s e st : string) :
  (load_dataset representable parse_number rows = [] ->
   main representable parse_number py_int missing group_sum lstsq_line
        (Some rows) g s e st
   = Uncaught IndexError)
  /\ (forall r r',
        In r (load_dataset representable parse_number rows) ->
        In r' (load_dataset representable parse_number rows) ->
        missing (Sex r) = true -> missing (Sex r') = false ->
        main representable parse_number py_int missing group_sum lstsq_line
             (Some rows) g s e st
        = Uncaught TypeError).
Proof.
  split.
  - intros Hdf. unfold main. rewrite Hdf. reflexivity.
  - intros r r' Hr Hr' Hm Hm'. unfold main.
    set (df := load_dataset representable parse_number rows) in *.
    destruct (available_years_bounds df) as (mn & mx & -> & -> & _).
    { intros Hnil. rewrite Hnil in Hr. destruct Hr. }
    destruct (sorted_sex_cases (map Sex df)) as [[-> _]|[_ [Hall|Hall]]];
      [reflexivity| |].
    + rewrite (Hall (Sex r')) in Hm' by (apply in_map, Hr'). discriminate Hm'.
    + rewrite (Hall (Sex r)) in Hm by (apply in_map, Hr). discriminate Hm.
Qed.

(** X22.  A run that reaches the end printed results that have no "Error"
    entry: they are the statistics of a yearly frame with rows, obtained
    from the loaded frame by the gender filter, a year range and the
    aggregation, for the names read from the last line; the chart is the
    chart of the same frame.  Every year of that frame has four digits. *)
Theorem main_finished_results
  (file : option (list RawRow)) (g s e st : string)
  (results : gmap string pyval) (chart : Chart) :
  main representable parse_number py_int missing group_sum lstsq_line
       file g s e st = Finished results chart ->
  results !! "Error" = None
  /\ exists rows sy ey yearly,
       file = Some rows
       /\ aggregate_by_year representable group_sum
            (filter_year_range
               (filter_gender (load_dataset representable parse_number rows) g)
               sy ey) = Ok yearly
       /\ yearly <> []
       /\ (forall row, In row yearly -> 1000 <= YearInt row <= 9999)
       /\ calculate_statistics lstsq_line yearly (read_stats st) = Ok results
       /\ plot_all_charts lstsq_line yearly (read_stats st) = Ok chart.
Proof.
  destruct file as [rows|]; [|discriminate].
  pose proof (main_cases rows g s e st) as H. cbv zeta in H. intros Hrun.
  destruct H as [[_ H]|[_ (mn & mx & _ & H)]]; [congruence|].
  destruct H as [[_ H]|[[_ H]|(sy & _ & [[_ H]|(ey & _ & H)])]]; try congruence.
  destruct H as [[_ H]|[[_ H]|(yearly & r & c & Hy & Hne & Hr & Hc & He & H)]];
    try congruence.
  rewrite H in Hrun. injection Hrun as <- <-.
  split; [exact He|]. exists rows, sy, ey, yearly.
  split; [reflexivity|]. split; [exact Hy|]. split; [exact Hne|].
  split; [|auto].
  intros row Hrow.
  destruct (aggregate_by_year_facts representable group_sum _ _ Hy) as (_ & _ & Hkeys & Hfour).
  apply (in_map YearInt), Hkeys, in_map_iff in Hrow as (r0 & <- & Hr0).
  apply (year_timestamp_bounds representable), Hfour, Hr0.
Qed.

(** X23.  A run exits with code 1 when the file is not found.  A run that
    exits does so with code 1 or with code 0.  With code 1, the file was
    not found or one of the two year lines is not empty and is not an
    integer.  With code 0, the file was found and both years were read
    (an empty line standing for the smallest loaded year at the start and
    for the largest at the end), and the gender filter followed by that
    year range left no row. *)
Theorem main_exit_codes
  (file : option (list RawRow)) (g s e st : string) :
  (file = None ->
   main representable parse_number py_int missing group_sum lstsq_line
        file g s e st = Exit 1)
  /\ (forall code,
        main representable parse_number py_int missing group_sum lstsq_line
             file g s e st = Exit code ->
        (code = 1
         /\ (file = None
             \/ (s <> "" /\ py_int s = None)
             \/ (e <> "" /\ py_int e = None)))
        \/ (code = 0
            /\ exists rows mn mx sy ey,
                 file = Some rows
                 /\ year_bounds (load_dataset representable parse_number rows) mn mx
                 /\ year_input py_int s mn = Some sy
                 /\ year_input py_int e mx = Some ey
                 /\ filter_year_range
                      (filter_gender
                         (load_dataset representable parse_number rows) g)
                      sy ey = [])).
Proof.
  split; [intros ->; reflexivity|].
  intros code Hrun. destruct file as [rows|].
  2:{ injection Hrun as <-. left. auto. }
  pose proof (main_cases rows g s e st) as H. cbv zeta in H.
  destruct H as [[_ H]|[_ (mn & mx & Hb & H)]]; [congruence|].
  destruct H as [[_ H]|[[Hs H]|(sy & Hs & [[He H]|(ey & He & H)])]].
  - congruence.
  - rewrite H in Hrun. injection Hrun as <-. left. split; [reflexivity|].
    right. left. apply (year_input_None py_int s mn), Hs.
  - rewrite H in Hrun. injection Hrun as <-. left. split; [reflexivity|].
    right. right. apply (year_input_None py_int e mx), He.
  - destruct H as [[_ H]|[[Hnil H]|(yearly & r & c & _ & _ & _ & _ & _ & H)]];
      [congruence| |congruence].
    rewrite H in Hrun. injection Hrun as <-. right. split; [reflexivity|].
    exists rows, mn, mx, sy, ey. auto.
Qed.

(** X24.  With both year lines left empty, the run covers every loaded
    year.  If it reaches the end, the results and the chart are those of
    the aggregation of the whole gender-filtered frame, which has rows.
    If it exits, it does so with code 0, and the gender filter left no
    row. *)
Theorem main_default_years (rows : list RawRow) (g st : string) :
  (forall results chart,
     main representable parse_number py_int missing group_sum lstsq_line
          (Some rows) g "" "" st = Finished results chart ->
     exists yearly,
       aggregate_by_year representable group_sum
         (filter_gender (load_dataset representable parse_number rows) g)
       = Ok yearly
       /\ yearly <> []
       /\ calculate_statistics lstsq_line yearly (read_stats st) = Ok results
       /\ plot_all_charts lstsq_line yearly (read_stats st) = Ok chart)
  /\ (forall code,
        main representable parse_number py_int missing group_sum lstsq_line
             (Some rows) g "" "" st = Exit code ->
        code = 0
        /\ filter_gender (load_dataset representable parse_number rows) g = []).
Proof.
  pose proof (main_cases rows g "" "" st) as H. cbv zeta in H.
  set (df := load_dataset representable parse_number rows) in *.
  set (run := main representable parse_number py_int missing group_sum lstsq_line
                   (Some rows) g "" "" st) in *.
  assert (Hcover : forall mn mx, year_bounds df mn mx ->
                     filter_year_range (filter_gender df g) mn mx
                     = filter_gender df g).
  { intros mn mx (_ & _ & Hb). apply filter_year_range_covering.
    intros r Hr. apply Hb.
    destruct (filter_gender_as_filter g) as [p Hp].
    rewrite Hp in Hr. apply List.filter_In in Hr as [Hr _]. exact Hr. }
  destruct H as [[_ H]|[_ (mn & mx & Hb & H)]].
  { split; intros; congruence. }
  destruct H as [[_ H]|[[Hs _]|(sy & Hs & [[He _]|(ey & He & H)])]];
    try discriminate.
  { split; intros; congruence. }
  injection Hs as <-. injection He as <-.
  rewrite (Hcover mn mx Hb) in H.
  destruct H as [[_ H]|[[Hnil H]|(yearly & res & c & Hy & Hne & Hr & Hc & _ & H)]].
  - split; intros; congruence.
  - split; [intros; congruence|].
    intros code Hrun. rewrite H in Hrun. injection Hrun as <-. auto.
  - split; [|intros; congruence].
    intros results chart Hrun. rewrite H in Hrun. injection Hrun as <- <-.
    exists yearly. auto.
Qed.

End MainFacts.

Lemma main_uncaught_before_input_witness :
  main ns_year read_integer read_year empty_cell int64_sum exact_line
    (Some [mkRaw "Males" "year" "5"; mkRaw "Males" "2001" "n/a"])
    "all" "" "" "average"
  = Uncaught IndexError
  /\ main ns_year read_integer read_year empty_cell int64_sum exact_line
       (Some gapped_file) "all" "" "" "average"
     = Uncaught TypeError.
Proof.
  split.
  - apply main_uncaught_before_input. reflexivity.
  - apply (proj2 (main_uncaught_before_input ns_year read_integer read_year
                    empty_cell int64_sum exact_line gapped_file
                    "all" "" "" "average")
             (mkRow "" 2002 6) (mkRow "Males" 2001 4)).
    + right. left. reflexivity.
    + left. reflexivity.
    + reflexivity.
    + reflexivity.
Defined.

Lemma main_finished_results_witness :
  exists results chart,
    main ns_year read_integer read_year empty_cell int64_sum exact_line
      (Some sample_file) "Male" "2000" "" "Average, trend"
    = Finished results chart
    /\ results !! "Error" = None.
Proof.
  destruct (main ns_year read_integer read_year empty_cell int64_sum exact_line
              (Some sample_file) "Male" "2000" "" "Average, trend")
    as [code|ex|results chart] eqn:E.
  - vm_compute in E. discriminate E.
  - vm_compute in E. discriminate E.
  - exists results, chart. split; [reflexivity|].
    apply (main_finished_results ns_year read_integer read_year empty_cell
             int64_sum exact_line _ _ _ _ _ _ _ E).
Defined.

Lemma main_exit_codes_witness :
  filter_year_range
    (filter_gender (load_dataset ns_year read_integer sample_file) "female")
    2001 2002 = [].
Proof.
  destruct (proj2 (main_exit_codes ns_year read_integer read_year empty_cell
                     int64_sum exact_line
                     (Some sample_file) "female" "2001" "" "max") 0 eq_refl)
    as [[Hcode _]|(_ & rows & mn & mx & sy & ey & Hf & Hb & Hs & He & Hnil)].
  - discriminate Hcode.
  - injection Hf as <-. injection Hs as <-.
    destruct (year_bounds_unique _ _ _ 2000 2002 Hb) as [_ ->].
    + split; [vm_compute; auto|]. split; [vm_compute; auto|].
      intros r Hr. vm_compute in Hr.
      destruct Hr as [<-|[<-|[<-|[<-|[]]]]]; vm_compute; split; discriminate.
    + injection He as <-. exact Hnil.
Defined.

Lemma main_default_years_witness :
  exists yearly,
    aggregate_by_year ns_year int64_sum
      (filter_gender (load_dataset ns_year read_integer sample_file) "female")
    = Ok yearly
    /\ yearly <> [].
Proof.
  destruct (main ns_year read_integer read_year empty_cell int64_sum exact_line
              (Some sample_file) "female" "" "" "max")
    as [code|ex|results chart] eqn:E.
  - vm_compute in E. discriminate E.
  - vm_compute in E. discriminate E.
  - destruct (proj1 (main_default_years ns_year read_integer read_year empty_cell
                       int64_sum exact_line sample_file "female" "max")
                results chart E) as (yearly & Hy & Hne & _).
    exists yearly. auto.
Defined.

Lemma load_dataset_years_and_order_witness :
  ns_year 2000 = true /\ 0 <= 2000 <= 9999.
Proof.
  apply (proj1 (load_dataset_years_and_order ns_year read_integer
                  [mkRaw "Males" "2000" "12"; mkRaw "Males" "20x0" "7"])
           (mkRow "Males" 2000 12)).
  left. reflexivity.
Defined.

Lemma calculate_statistics_error_iff_empty_witness :
  exists m : gmap string pyval,
    calculate_statistics exact_line collinear_series ["average"] = Ok m
    /\ ~ is_Some (m !! "Error").
Proof.
  destruct (calculate_statistics_error_iff_empty exact_line
              collinear_series ["average"])
    as (m & Hm & Hiff).
  exists m. split; [exact Hm|]. intros H. apply Hiff in H. discriminate H.
Defined.

Lemma plot_all_charts_total_and_consistent_witness :
  exists ch : Chart,
    plot_all_charts exact_line collinear_series ["trend"] = Ok ch
    /\ is_Some (trend_line ch).
Proof.
  destruct (plot_all_charts_total_and_consistent exact_line
              collinear_series ["trend"])
    as (ch & Hch & _ & Hiff & _).
  exists ch. split; [exact Hch|]. apply Hiff. simpl. split; [auto|lia].
Defined.
